(** * restaurant-chatbot: the conversation dispatcher and the payment
      reconciliation handler of [app.js], embedded and verified.

    The development follows the source file:

    - [Number]: the Number values that [parseInt] returns, and the
      operations the handlers apply to them;
    - [JsString]: the string primitives the handlers call ([trim], [split],
      [parseInt]) on UTF-16 code units;
    - [Regex]: a derivative matcher, with the two patterns of the source;
    - [MenuItem], [Order]: the two Mongoose schemas;
    - [Mongo]: the collection operations the handlers use;
    - [Js]: a small state-and-completion monad (normal / return / throw)
      in which the handlers are written statement by statement;
    - [Chatbot]: the [user-message] handler of a connection;
    - [Payment]: the [GET /payment/callback] handler;
    - the vocabulary of the properties, then the properties: input
      validation, the availability check of checkout, the creation of an
      order, the payment callback and its repetition, the writes of both
      paths to the orders, the compensating delete, and the pending
      orders of a session.

    What lies outside [app.js] is an input of each run ([Env]): the clock,
    the fresh [_id], the menu collection, the answers of the gateway, and
    which collection calls reject. *)

From Stdlib Require Import List String Ascii ZArith NArith Bool Lia Arith.
From Stdlib Require Import Permutation.
From Stdlib Require Import Sorted.
Import ListNotations.

Local Open Scope string_scope.
Local Open Scope Z_scope.

(** An ObjectId is rendered as its hexadecimal string, which is how the
    source interpolates it into the payment reference. *)
Definition ObjectId := string.

(* ------------------------------------------------------------------ *)
(** ** Numbers as [parseInt] returns them *)

Module Number.

(** The Number values without a fraction: NaN, the negative zero
    ([Finite 0] is the positive one), the integers, and the two
    infinities. *)
Inductive t : Type :=
| NaN
| NegZero
| Finite (z : Z)
| Infinity (negative : bool).

(** The magnitude of the double nearest to [n], before overflow: below
    2^53 it is [n]; above, [n] keeps its 53 leading binary digits, rounded
    to the nearest, a tie going to the even one. *)
Definition nearest (n : N) : N :=
  if (n <? 2 ^ 53)%N then n
  else
    let e := (N.log2 n - 52)%N in
    let q := N.shiftr n e in
    let r := (n - N.shiftl q e)%N in
    let half := N.shiftl 1 (e - 1) in
    let q' := if (half <? r)%N || ((r =? half)%N && N.odd q)
              then (q + 1)%N else q in
    N.shiftl q' e.

(** The Number value for an integer: the nearest double, and an
    infinity when that reaches 2^1024. *)
Definition of_integer (z : Z) : t :=
  let m := nearest (Z.abs_N z) in
  if (2 ^ 1024 <=? m)%N then Infinity (z <? 0)
  else Finite (Z.sgn z * Z.of_N m).

(** [isNaN(x)] *)
Definition isNaN (x : t) : bool :=
  match x with NaN => true | _ => false end.

(** [x - 1].  Up to 2^53 the difference of an integer is exact. Above,
    JavaScript rounds it again, to a double that is still at least 2^53;
    the exact difference is kept here, which like the rounded one is
    beyond the length of every array. *)
Definition minus_one (x : t) : t :=
  match x with
  | NaN => NaN
  | NegZero => Finite (-1)
  | Finite z => Finite (z - 1)
  | Infinity negative => Infinity negative
  end.

(** [x >= 0] *)
Definition ge_zero (x : t) : bool :=
  match x with
  | NaN => false
  | NegZero => true
  | Finite z => 0 <=? z
  | Infinity negative => negb negative
  end.

(** [x < length], for the length of an array. *)
Definition lt_length (x : t) (length : nat) : bool :=
  match x with
  | NaN => false
  | NegZero => 0 <? Z.of_nat length
  | Finite z => z <? Z.of_nat length
  | Infinity negative => negative
  end.

(** [array[x]]: the element whose index is written like [x], or
    undefined. *)
Definition element {A} (array : list A) (x : t) : option A :=
  match x with
  | NegZero => nth_error array 0
  | Finite z => if 0 <=? z then nth_error array (Z.to_nat z) else None
  | _ => None
  end.

End Number.

(* ------------------------------------------------------------------ *)
(** ** Strings as the socket delivers them *)

Module JsString.

(** A JavaScript string is a sequence of UTF-16 code units. *)
Definition t := list N.

Definition of_string (s : string) : t :=
  List.map N_of_ascii (list_ascii_of_string s).

Definition eqb (a b : t) : bool :=
  if list_eq_dec N.eq_dec a b then true else false.

(** WhiteSpace and LineTerminator code points of ECMAScript. *)
Definition isWhiteSpace (c : N) : bool :=
  (existsb (N.eqb c)
     [9; 10; 11; 12; 13; 32; 160; 5760; 8232; 8233; 8239; 8287; 12288; 65279]
   || ((8192 <=? c) && (c <=? 8202)))%N.

Fixpoint trimStart (s : t) : t :=
  match s with
  | [] => []
  | c :: s' => if isWhiteSpace c then trimStart s' else s
  end.

Definition trimEnd (s : t) : t := rev (trimStart (rev s)).

(** [String.prototype.trim] *)
Definition trim (s : t) : t := trimEnd (trimStart s).

(** [String.prototype.split] with a one-unit separator. *)
Fixpoint split (sep : N) (s : t) : list t :=
  match s with
  | [] => [[]]
  | c :: s' =>
      if (c =? sep)%N then [] :: split sep s'
      else match split sep s' with
           | h :: r => (c :: h) :: r
           | [] => [[c]]
           end
  end.

Definition digit_value (radix : N) (c : N) : option N :=
  let v :=
    if ((48 <=? c) && (c <=? 57))%N then Some (c - 48)%N
    else if ((97 <=? c) && (c <=? 122))%N then Some (c - 87)%N
    else if ((65 <=? c) && (c <=? 90))%N then Some (c - 55)%N
    else None in
  match v with
  | Some d => if (d <? radix)%N then Some d else None
  | None => None
  end.

(** Longest prefix of digits in [radix], accumulated from the left.
    [None] when the prefix is empty. *)
Fixpoint digits (radix : N) (acc : option N) (s : t) : option N :=
  match s with
  | [] => acc
  | c :: s' =>
      match digit_value radix c with
      | Some d =>
          digits radix
            (Some (match acc with Some a => a * radix + d | None => d end)%N) s'
      | None => acc
      end
  end.

(** [parseInt(s)] with no radix argument: leading white space is
    skipped, then a sign, then a [0x] or [0X] prefix; the longest run of
    digits that follows is read, and the result is the Number value for
    the integer it writes - NaN when the run is empty, the negative zero
    for a zero after a minus sign. *)
Definition parseInt (s : t) : Number.t :=
  let s := trimStart s in
  let '(negative, s) :=
    match s with
    | 45%N :: r => (true, r)
    | 43%N :: r => (false, r)
    | _ => (false, s)
    end in
  let '(radix, s) :=
    match s with
    | 48%N :: 120%N :: r => (16%N, r)
    | 48%N :: 88%N :: r => (16%N, r)
    | _ => (10%N, s)
    end in
  match digits radix None s with
  | Some n =>
      if negative then
        if (n =? 0)%N then Number.NegZero
        else Number.of_integer (- Z.of_N n)
      else Number.of_integer (Z.of_N n)
  | None => Number.NaN
  end.

End JsString.

(* ------------------------------------------------------------------ *)
(** ** Regular expressions *)

Module Regex.

Inductive t : Type :=
| Void                       (* matches nothing *)
| Eps                        (* the empty string *)
| Class (p : N -> bool)      (* one code unit satisfying [p] *)
| Alt (r s : t)
| Seq (r s : t)
| Star (r : t).

Fixpoint nullable (r : t) : bool :=
  match r with
  | Void => false
  | Eps => true
  | Class _ => false
  | Alt r s => nullable r || nullable s
  | Seq r s => nullable r && nullable s
  | Star _ => true
  end.

Fixpoint deriv (c : N) (r : t) : t :=
  match r with
  | Void => Void
  | Eps => Void
  | Class p => if p c then Eps else Void
  | Alt r s => Alt (deriv c r) (deriv c s)
  | Seq r s =>
      if nullable r then Alt (Seq (deriv c r) s) (deriv c s)
      else Seq (deriv c r) s
  | Star r => Seq (deriv c r) (Star r)
  end.

Fixpoint derivs (s : list N) (r : t) : t :=
  match s with
  | [] => r
  | c :: s' => derivs s' (deriv c r)
  end.

(** [test r s]: the whole of [s] matches [r], as [/^r$/] without flags. *)
Definition test (r : t) (s : list N) : bool := nullable (derivs s r).

Definition Plus (r : t) : t := Seq r (Star r).

Definition Chr (c : N) : t := Class (N.eqb c).

Fixpoint Lit (s : list N) : t :=
  match s with
  | [] => Eps
  | c :: s' => Seq (Chr c) (Lit s')
  end.

Fixpoint Rep (n : nat) (r : t) : t :=
  match n with
  | O => Eps
  | S n' => Seq r (Rep n' r)
  end.

(** [\d] *)
Definition digit : t := Class (fun c => (48 <=? c) && (c <=? 57))%N.

(** The denotation against which the matcher is checked. *)
Inductive Matches : t -> list N -> Prop :=
| MEps : Matches Eps []
| MClass p c : p c = true -> Matches (Class p) [c]
| MAltL r s w : Matches r w -> Matches (Alt r s) w
| MAltR r s w : Matches s w -> Matches (Alt r s) w
| MSeq r s u v : Matches r u -> Matches s v -> Matches (Seq r s) (u ++ v)
| MStar0 r : Matches (Star r) []
| MStarS r u v :
    Matches r u -> Matches (Star r) v -> Matches (Star r) (u ++ v).

End Regex.

(** The pattern of the input validation: one of the reserved commands
    0, 1, 97, 98, 99, or one or more digits followed by any number of
    groups made of a comma and one or more digits; anchored at both ends. *)
Definition input_pattern : Regex.t :=
  let lit s := Regex.Lit (JsString.of_string s) in
  Regex.Alt (lit "0")
    (Regex.Alt (lit "1")
       (Regex.Alt (lit "97")
          (Regex.Alt (lit "98")
             (Regex.Alt (lit "99")
                (Regex.Seq (Regex.Plus Regex.digit)
                   (Regex.Star
                      (Regex.Seq (Regex.Chr 44%N)
                         (Regex.Plus Regex.digit)))))))).

(** [/^[0-9a-fA-F-]{36}$/], the [match] validator of [orderSchema.sessionId]. *)
Definition session_id_pattern : Regex.t :=
  Regex.Rep 36
    (Regex.Class (fun c =>
       ((48 <=? c) && (c <=? 57)) || ((97 <=? c) && (c <=? 102))
       || ((65 <=? c) && (c <=? 70)) || (c =? 45))%N).

(* ------------------------------------------------------------------ *)
(** ** The two schemas *)

Module MenuItem.

(** [menuItemSchema].  Prices are whole naira amounts. *)
Record t : Type := {
  _id : ObjectId;
  name : string;
  price : Z;
  description : string
}.

End MenuItem.

Module Order.

Inductive Status : Type := pending | paid | cancelled.

Definition status_eqb (a b : Status) : bool :=
  match a, b with
  | pending, pending | paid, paid | cancelled, cancelled => true
  | _, _ => false
  end.

Record Item : Type := {
  menuItemId : ObjectId;
  name : string;
  price : Z;
  quantity : Z
}.

(** [orderSchema], with the two fields that [timestamps: true] adds. *)
Record t : Type := {
  _id : ObjectId;
  sessionId : string;
  items : list Item;
  total : Z;
  status : Status;
  paymentReference : option string;
  createdAt : Z;
  updatedAt : Z
}.

Definition set_status (s : Status) (now : Z) (o : t) : t :=
  {| _id := _id o; sessionId := sessionId o; items := items o;
     total := total o; status := s;
     paymentReference := paymentReference o;
     createdAt := createdAt o; updatedAt := now |}.

Definition set_paymentReference (r : string) (now : Z) (o : t) : t :=
  {| _id := _id o; sessionId := sessionId o; items := items o;
     total := total o; status := status o;
     paymentReference := Some r;
     createdAt := createdAt o; updatedAt := now |}.

(** The validators that run in [save]: [sessionId] must match its
    pattern and [total] must be at least 100. *)
Definition validate (o : t) : bool :=
  Regex.test session_id_pattern (JsString.of_string (sessionId o))
  && (100 <=? total o).

Definition is_pending (o : t) : bool := status_eqb (status o) pending.

Definition has_reference (r : string) (o : t) : bool :=
  match paymentReference o with
  | Some r' => String.eqb r' r
  | None => false
  end.

End Order.

(** [req.session]: the fields the handlers read and write. *)
Record Session : Type := {
  sessionId : string;
  currentOrder : list ObjectId;
  awaitingItemSelection : bool
}.

(* ------------------------------------------------------------------ *)
(** ** Collections *)

Module Mongo.

(** A collection in natural (insertion) order. *)
Definition insert {A} (doc : A) (coll : list A) : list A := coll ++ [doc].

Definition findOne {A} (q : A -> bool) (coll : list A) : option A :=
  List.find q coll.

Definition deleteMany {A} (q : A -> bool) (coll : list A) : list A :=
  List.filter (fun d => negb (q d)) coll.

(** Apply [upd] to the first document matching [q]. *)
Fixpoint updateOne {A} (q : A -> bool) (upd : A -> A) (coll : list A)
  : list A :=
  match coll with
  | [] => []
  | d :: rest => if q d then upd d :: rest else d :: updateOne q upd rest
  end.

(** [$in] on [_id]. *)
Definition id_in (ids : list ObjectId) (id : ObjectId) : bool :=
  existsb (String.eqb id) ids.

(** [find({ _id: { $in: ids } })] on the menu. *)
Definition find_id_in (ids : list ObjectId) (coll : list MenuItem.t)
  : list MenuItem.t :=
  List.filter (fun m => id_in ids (MenuItem._id m)) coll.

(** The filter [{ sessionId: sid, status: "pending" }]. *)
Definition by_session_pending (sid : string) (o : Order.t) : bool :=
  String.eqb (Order.sessionId o) sid && Order.is_pending o.

(** The filter [{ sessionId: sid, status: { $ne: "pending" } }]. *)
Definition by_session_not_pending (sid : string) (o : Order.t) : bool :=
  String.eqb (Order.sessionId o) sid && negb (Order.is_pending o).

(** [.sort({ createdAt: -1 })] *)
Fixpoint insert_desc (o : Order.t) (l : list Order.t) : list Order.t :=
  match l with
  | [] => [o]
  | x :: r =>
      if Order.createdAt x <? Order.createdAt o then o :: l
      else x :: insert_desc o r
  end.

Definition sort_createdAt_desc (l : list Order.t) : list Order.t :=
  fold_right insert_desc [] l.

End Mongo.

(* ------------------------------------------------------------------ *)
(** ** What a handler does to the outside *)

Inductive BotMessage : Type :=
| Options                              (* "Please choose an option: ..." *)
| InvalidInput                         (* "Invalid input. Please use only
                                          numbers and commas." *)
| Menu (items : list MenuItem.t)       (* "Menu: ... Enter item numbers ..." *)
| MenuError                            (* "Error loading menu" *)
| OurMenu (items : list MenuItem.t)    (* "Our Menu: ... Enter item numbers
                                          ..." *)
| OurMenuError                         (* "Error loading menu. Please try
                                          again." *)
| ItemsUnavailable                     (* "Some items are no longer
                                          available. ..." *)
| NoOrderToPlace                       (* "No order to place" *)
| MinimumAmount                        (* "Minimum order amount is 100" *)
| PaymentUnavailable                   (* "Payment service unavailable." *)
| PaymentError (message : string)      (* "Payment error: <message>" *)
| PaymentFailed                        (* "Payment processing failed.
                                          Please try again." *)
| NoHistory                            (* "No order history found" *)
| History (orders : list Order.t)      (* "Your Order History: ..." *)
| CurrentPending (o : Order.t)         (* "Current Pending Order: ..." *)
| NoCurrentOrder                       (* "No current order" *)
| CurrentOrder (items : list MenuItem.t) (total : Z)
| Cancelled                            (* "Order cancelled successfully" *)
| Added (count : nat) (total : Z)      (* "Added <count> item(s) ...
                                          total: <total>" *)
| InvalidSelection                     (* "Invalid item selection" *)
| SelectionError                       (* "Error processing selection" *)
| GenericError.                        (* "An error occurred. Please try
                                          again." *)

(** The body of the [transaction/initialize] request. *)
Record PaymentData : Type := {
  email : string;
  amount : Z;
  reference : string;
  callback_url : string
}.

Inductive Effect : Type :=
| bot_message (m : BotMessage)         (* socket.emit("bot-message", _) *)
| redirect (url : string)              (* socket.emit("redirect", _) *)
| paystack_initialize (d : PaymentData)
    (* axios.post(".../transaction/initialize", _, ...) *)
| paystack_verify (reference : string)
    (* axios.get(".../transaction/verify/<reference>", ...) *)
| res_redirect (location : string)     (* res.redirect(_) *)
| clear_session (sessionId : string).  (* io.emit("clear-session", _) *)

(** The answer to [transaction/initialize]. *)
Inductive InitReply : Type :=
| InitRejected (message : option string)
    (* the promise rejects (timeout, network, non-2xx);
       [message] is [error.response?.data?.message] *)
| InitResolved (authorization_url : option string).
    (* [response?.data?.data?.authorization_url] *)

(** The answer to [transaction/verify]. *)
Inductive VerifyReply : Type :=
| VerifyRejected
    (* the promise rejects, or the body has no [data.data] *)
| VerifyResolved (status : string).
    (* [response.data.data.status] *)

(** Everything a handler obtains from outside during one run. *)
Record Env : Type := {
  now : Z;                             (* the clock of the timestamps *)
  newObjectId : ObjectId;              (* the [_id] of [new Order(...)] *)
  menu : list MenuItem.t;              (* the menuitems collection *)
  PAYSTACK_SECRET_KEY : bool;          (* the variable is set *)
  initialize : PaymentData -> InitReply;
  verify : string -> VerifyReply;
  menuFindRejects : bool;              (* [MenuItem.find] rejects *)
  orderFindRejects : bool;             (* [Order.find], [findOne] reject *)
  orderInsertRejects : bool;           (* the insert of a new order rejects *)
  orderUpdateRejects : bool;           (* an update of a stored order rejects *)
  orderDeleteRejects : bool            (* [Order.deleteMany] rejects *)
}.

(* ------------------------------------------------------------------ *)
(** ** Statements: state, early return, exceptions *)

Module Js.

Inductive Exn : Type :=
| AxiosError (message : option string)
| MongoError
| ValidationError
| Error (message : string)
| TypeError
| ReferenceError.

Inductive Completion (A : Type) : Type :=
| Normal (a : A)
| Return                              (* [return] out of the handler *)
| Throw (e : Exn).

Arguments Normal {A} a.
Arguments Return {A}.
Arguments Throw {A} e.

Definition M (S A : Type) : Type := S -> Completion A * S.

Definition ret {S A} (a : A) : M S A := fun s => (Normal a, s).

Definition bind {S A B} (m : M S A) (k : A -> M S B) : M S B :=
  fun s =>
    match m s with
    | (Normal a, s') => k a s'
    | (Return, s') => (Return, s')
    | (Throw e, s') => (Throw e, s')
    end.

Definition return_ {S A} : M S A := fun s => (Return, s).

Definition throw {S A} (e : Exn) : M S A := fun s => (Throw e, s).

(** [try { body } catch (error) { handler }] *)
Definition try_catch {S A} (body : M S A) (handler : Exn -> M S A) : M S A :=
  fun s =>
    match body s with
    | (Throw e, s') => handler e s'
    | r => r
    end.

Definition get {S} : M S S := fun s => (Normal s, s).

Definition modify {S} (f : S -> S) : M S unit := fun s => (Normal tt, f s).

(** [await p] where [p] rejects when [rejects] holds. *)
Definition await {S} (rejects : bool) (e : Exn) : M S unit :=
  if rejects then throw e else ret tt.

End Js.

Declare Scope js_scope.
Delimit Scope js_scope with js.
Notation "x <- m ;; k" := (Js.bind m (fun x => k))
  (at level 61, m at next level, right associativity) : js_scope.
Notation "m ;; k" := (Js.bind m (fun _ => k))
  (at level 61, right associativity) : js_scope.

(* ------------------------------------------------------------------ *)
(** ** The [user-message] handler *)

Module Chatbot.

Import Js.
Local Open Scope js_scope.

(** What one run of the handler can read and write: the session of the
    connection, the orders collection, what has been sent so far, and
    [activeOrder], the local of [case "99"] ([None] is undefined/null). *)
Record Turn : Type := {
  session : Session;
  orders : list Order.t;
  out : list Effect;
  activeOrder : option Order.t
}.

Definition emit (e : Effect) : M Turn unit :=
  modify (fun t =>
    {| session := session t; orders := orders t;
       out := out t ++ [e]; activeOrder := activeOrder t |}).

Definition set_session (f : Session -> Session) : M Turn unit :=
  modify (fun t =>
    {| session := f (session t); orders := orders t;
       out := out t; activeOrder := activeOrder t |}).

Definition set_orders (f : list Order.t -> list Order.t) : M Turn unit :=
  modify (fun t =>
    {| session := session t; orders := f (orders t);
       out := out t; activeOrder := activeOrder t |}).

Definition set_activeOrder (o : option Order.t) : M Turn unit :=
  modify (fun t =>
    {| session := session t; orders := orders t;
       out := out t; activeOrder := o |}).

(** [req.session.currentOrder = c; req.session.save()] *)
Definition set_currentOrder (c : list ObjectId) : M Turn unit :=
  set_session (fun s =>
    {| sessionId := sessionId s; currentOrder := c;
       awaitingItemSelection := awaitingItemSelection s |}).

(** [req.session.awaitingItemSelection = b; req.session.save()] *)
Definition set_awaitingItemSelection (b : bool) : M Turn unit :=
  set_session (fun s =>
    {| sessionId := sessionId s; currentOrder := currentOrder s;
       awaitingItemSelection := b |}).

Definition sendOptions : M Turn unit := emit (bot_message Options).

(** *** Collection calls *)

(** [await MenuItem.find()] *)
Definition MenuItem_find (env : Env) : M Turn (list MenuItem.t) :=
  await (menuFindRejects env) MongoError ;;
  ret (menu env).

(** [await MenuItem.find({ _id: { $in: ids } })] *)
Definition MenuItem_find_in (env : Env) (ids : list ObjectId)
  : M Turn (list MenuItem.t) :=
  await (menuFindRejects env) MongoError ;;
  ret (Mongo.find_id_in ids (menu env)).

(** [await Order.findOne({ sessionId, status: "pending" })] *)
Definition Order_findOne_pending (env : Env) (sid : string)
  : M Turn (option Order.t) :=
  await (orderFindRejects env) MongoError ;;
  t <- get ;;
  ret (Mongo.findOne (Mongo.by_session_pending sid) (orders t)).

(** [await Order.find({ sessionId, status: { $ne: "pending" } })
      .sort({ createdAt: -1 })] *)
Definition Order_find_history (env : Env) (sid : string)
  : M Turn (list Order.t) :=
  await (orderFindRejects env) MongoError ;;
  t <- get ;;
  ret (Mongo.sort_createdAt_desc
         (List.filter (Mongo.by_session_not_pending sid) (orders t))).

(** [await doc.save()] on a new document: validate, then insert. *)
Definition Order_save_new (env : Env) (o : Order.t) : M Turn unit :=
  (if Order.validate o then ret tt else throw ValidationError) ;;
  await (orderInsertRejects env) MongoError ;;
  set_orders (Mongo.insert o).

(** [doc.paymentReference = r; await doc.save()] on a stored document:
    nothing is sent when the path is unchanged; otherwise the stored
    document with that [_id] gets the reference and a new [updatedAt]. *)
Definition Order_save_reference (env : Env) (o : Order.t) (r : string)
  : M Turn unit :=
  if Order.has_reference r o then ret tt
  else
    await (orderUpdateRejects env) MongoError ;;
    set_orders
      (Mongo.updateOne (fun d => String.eqb (Order._id d) (Order._id o))
                       (Order.set_paymentReference r (now env))).

(** [await Order.deleteMany({ sessionId, status: "pending" })] *)
Definition Order_deleteMany_pending (env : Env) (sid : string)
  : M Turn unit :=
  await (orderDeleteRejects env) MongoError ;;
  set_orders (Mongo.deleteMany (Mongo.by_session_pending sid)).

(** [await axios.post(".../transaction/initialize", paymentData, ...)],
    then [response?.data?.data?.authorization_url]. *)
Definition axios_post_initialize (env : Env) (d : PaymentData)
  : M Turn (option string) :=
  emit (paystack_initialize d) ;;
  match initialize env d with
  | InitRejected message => throw (AxiosError message)
  | InitResolved url => ret url
  end.

(** [showMenu], the helper defined next to [sendOptions]; no handler
    calls it. *)
Definition showMenu (env : Env) : M Turn unit :=
  try_catch
    (t <- get ;;
     Order_deleteMany_pending env (sessionId (session t)) ;;
     menuItems <- MenuItem_find env ;;
     emit (bot_message (OurMenu menuItems)) ;;
     set_currentOrder [])
    (fun _ => emit (bot_message OurMenuError)).

(** *** The cases of the switch *)

Definition sum_prices (items : list MenuItem.t) : Z :=
  fold_left (fun sum item => sum + MenuItem.price item) items 0.

Definition snapshot (item : MenuItem.t) : Order.Item :=
  {| Order.menuItemId := MenuItem._id item;
     Order.name := MenuItem.name item;
     Order.price := MenuItem.price item;
     Order.quantity := 1 |}.

(** [new Order({ sessionId, items: items.map(...), total:
    items.reduce(...), status: "pending" })] *)
Definition new_Order (env : Env) (sid : string) (items : list MenuItem.t)
  : Order.t :=
  {| Order._id := newObjectId env;
     Order.sessionId := sid;
     Order.items := List.map snapshot items;
     Order.total := sum_prices items;
     Order.status := Order.pending;
     Order.paymentReference := None;
     Order.createdAt := now env;
     Order.updatedAt := now env |}.

Definition paymentData_of (o : Order.t) : PaymentData :=
  {| email := "customer@example.com";
     amount := Order.total o * 100;
     reference := "order_" ++ Order._id o;
     callback_url := "http://localhost:9000/payment/callback" |}.

(** [case "1"] *)
Definition browse (env : Env) : M Turn unit :=
  try_catch
    (set_currentOrder [] ;;
     menuItems <- MenuItem_find env ;;
     emit (bot_message (Menu menuItems)) ;;
     set_awaitingItemSelection true)
    (fun _ =>
       emit (bot_message MenuError) ;;
       sendOptions).

(** [case "99"].  [activeOrder] is declared with [let] inside the [try]
    block, so it is not in scope in the [catch] block: evaluating the
    filter [{ _id: activeOrder?._id, status: "pending" }] there throws a
    ReferenceError before [Order.deleteOne] is called, whichever way the
    [try] block failed.  The exception leaves the [catch] block and
    reaches the [catch] of the handler. *)
Definition checkout (env : Env) : M Turn unit :=
  try_catch
    (t <- get ;;
     (if (0 <? List.length (currentOrder (session t)))%nat then
        items <- MenuItem_find_in env (currentOrder (session t)) ;;
        if negb (List.length items
                 =? List.length (currentOrder (session t)))%nat then
          emit (bot_message ItemsUnavailable) ;;
          set_currentOrder [] ;;
          sendOptions ;;
          return_
        else
          let o := new_Order env (sessionId (session t)) items in
          set_activeOrder (Some o) ;;
          Order_save_new env o ;;
          set_currentOrder []
      else
        found <- Order_findOne_pending env (sessionId (session t)) ;;
        set_activeOrder found) ;;
     t <- get ;;
     match activeOrder t with
     | None =>
         emit (bot_message NoOrderToPlace) ;;
         sendOptions ;;
         return_
     | Some o =>
         if Order.total o <? 100 then
           emit (bot_message MinimumAmount) ;;
           sendOptions ;;
           return_
         else
           let paymentData := paymentData_of o in
           if negb (PAYSTACK_SECRET_KEY env) then
             emit (bot_message PaymentUnavailable) ;;
             sendOptions ;;
             return_
           else
             response <- axios_post_initialize env paymentData ;;
             match response with
             | None => throw (Error "Invalid Paystack response")
             | Some url =>
                 if String.eqb url "" then
                   throw (Error "Invalid Paystack response")
                 else
                   Order_save_reference env o (reference paymentData) ;;
                   emit (redirect url)
             end
     end)
    (fun error =>
       emit (bot_message
               match error with
               | AxiosError (Some message) =>
                   if String.eqb message "" then PaymentFailed
                   else PaymentError message
               | _ => PaymentFailed
               end) ;;
       sendOptions ;;
       throw ReferenceError).

(** [case "98"] *)
Definition history (env : Env) : M Turn unit :=
  t <- get ;;
  found <- Order_find_history env (sessionId (session t)) ;;
  (match found with
   | [] => emit (bot_message NoHistory)
   | _ => emit (bot_message (History found))
   end) ;;
  sendOptions.

(** [case "97"] *)
Definition review (env : Env) : M Turn unit :=
  t <- get ;;
  (if (List.length (currentOrder (session t)) =? 0)%nat then
     found <- Order_findOne_pending env (sessionId (session t)) ;;
     match found with
     | Some o => emit (bot_message (CurrentPending o))
     | None => emit (bot_message NoCurrentOrder)
     end
   else
     items <- MenuItem_find_in env (currentOrder (session t)) ;;
     emit (bot_message (CurrentOrder items (sum_prices items)))) ;;
  sendOptions.

(** [case "0"] *)
Definition cancel (env : Env) : M Turn unit :=
  t <- get ;;
  Order_deleteMany_pending env (sessionId (session t)) ;;
  set_currentOrder [] ;;
  emit (bot_message Cancelled) ;;
  sendOptions.

(** [cleanedInput.split(",").map((num) => parseInt(num.trim()))
      .filter((num) => !isNaN(num))] *)
Definition selectedItems (cleanedInput : JsString.t) : list Number.t :=
  List.filter
    (fun num => negb (Number.isNaN num))
    (List.map (fun num => JsString.parseInt (JsString.trim num))
       (JsString.split 44%N cleanedInput)).

(** [selectedItems.map((num) => num - 1)
      .filter((index) => index >= 0 && index < menuItems.length)
      .map((index) => menuItems[index]._id)] *)
Definition validItems (menuItems : list MenuItem.t)
    (selected : list Number.t) : list ObjectId :=
  flat_map
    (fun index =>
       match Number.element menuItems index with
       | Some item => [MenuItem._id item]
       | None => []
       end)
    (List.filter
       (fun index =>
          Number.ge_zero index
          && Number.lt_length index (List.length menuItems))
       (List.map Number.minus_one selected)).

(** The total shown after a selection: each id is looked up again with
    [menuItems.find((i) => i._id.equals(id))]. *)
Definition selection_total (menuItems : list MenuItem.t)
    (ids : list ObjectId) : Z :=
  fold_left
    (fun sum id =>
       sum + match List.find (fun i => String.eqb (MenuItem._id i) id)
                     menuItems with
             | Some item => MenuItem.price item
             | None => 0
             end)
    ids 0.

(** [default] *)
Definition selection (env : Env) (cleanedInput : JsString.t) : M Turn unit :=
  try_catch
    (t <- get ;;
     if awaitingItemSelection (session t) then
       menuItems <- MenuItem_find env ;;
       let valid := validItems menuItems (selectedItems cleanedInput) in
       (if (0 <? List.length valid)%nat then
          set_currentOrder valid ;;
          set_awaitingItemSelection false ;;
          emit (bot_message
                  (Added (List.length valid) (selection_total menuItems valid)))
        else
          emit (bot_message InvalidSelection)) ;;
       sendOptions
     else ret tt)
    (fun _ =>
       emit (bot_message SelectionError) ;;
       sendOptions).

Definition case_ (s : string) (cleanedInput : JsString.t) : bool :=
  JsString.eqb cleanedInput (JsString.of_string s).

(** [socket.on("user-message", async (input) => { ... })] *)
Definition user_message (env : Env) (input : JsString.t) : M Turn unit :=
  try_catch
    (let cleanedInput := JsString.trim input in
     if negb (Regex.test input_pattern cleanedInput) then
       emit (bot_message InvalidInput) ;;
       sendOptions ;;
       return_
     else if case_ "1" cleanedInput then browse env
     else if case_ "99" cleanedInput then checkout env
     else if case_ "98" cleanedInput then history env
     else if case_ "97" cleanedInput then review env
     else if case_ "0" cleanedInput then cancel env
     else selection env cleanedInput)
    (fun _ =>
       emit (bot_message GenericError) ;;
       sendOptions).

(** One message of a connection, run on its session and on the orders
    collection: the session and the collection afterwards, and what was
    sent, in order. *)
Definition on_user_message (env : Env) (input : JsString.t)
    (s : Session) (db : list Order.t)
  : Session * list Order.t * list Effect :=
  let t := snd (user_message env input
                  {| session := s; orders := db; out := [];
                     activeOrder := None |}) in
  (session t, orders t, out t).

End Chatbot.

(* ------------------------------------------------------------------ *)
(** ** The payment callback *)

Module Payment.

Import Js.
Local Open Scope js_scope.

(** What one request can read and write: the orders collection, what has
    been sent so far, and whether the response has already gone out. *)
Record Http : Type := {
  orders : list Order.t;
  out : list Effect;
  headersSent : bool
}.

Definition emit (e : Effect) : M Http unit :=
  modify (fun h =>
    {| orders := orders h; out := out h ++ [e];
       headersSent := headersSent h |}).

(** [res.redirect(location)]: a response can be sent once; a second
    attempt throws. *)
Definition redirect_to (location : string) : M Http unit :=
  h <- get ;;
  if headersSent h then throw (Error "ERR_HTTP_HEADERS_SENT")
  else
    modify (fun h =>
      {| orders := orders h; out := out h ++ [res_redirect location];
         headersSent := true |}).

(** [await axios.get(".../transaction/verify/<reference>", ...)], then
    [response.data.data.status]. *)
Definition axios_get_verify (env : Env) (reference : string)
  : M Http string :=
  emit (paystack_verify reference) ;;
  match verify env reference with
  | VerifyRejected => throw (AxiosError None)
  | VerifyResolved status => ret status
  end.

(** [await Order.findOneAndUpdate({ paymentReference: reference },
      { status: "paid" }, { new: true })]: the first order carrying the
    reference gets status paid and a new [updatedAt]; the updated
    document, or null, is returned. *)
Definition Order_findOneAndUpdate_paid (env : Env) (reference : string)
  : M Http (option Order.t) :=
  await (orderUpdateRejects env) MongoError ;;
  h <- get ;;
  let found := Mongo.findOne (Order.has_reference reference) (orders h) in
  modify (fun h =>
    {| orders := Mongo.updateOne (Order.has_reference reference)
                   (Order.set_status Order.paid (now env)) (orders h);
       out := out h; headersSent := headersSent h |}) ;;
  ret (option_map (Order.set_status Order.paid (now env)) found).

(** [app.get("/payment/callback", async (req, res) => { ... })] *)
Definition payment_callback (env : Env) (reference : string) : M Http unit :=
  try_catch
    (status <- axios_get_verify env reference ;;
     if String.eqb status "success" then
       order <- Order_findOneAndUpdate_paid env reference ;;
       redirect_to ("/receipt?reference=" ++ reference) ;;
       match order with
       | Some o => emit (clear_session (Order.sessionId o))
       | None => throw TypeError      (* [order.sessionId] on null *)
       end
     else ret tt)
    (fun _ => redirect_to "/?payment=error").

(** What a request leaves behind. [unhandled] holds when the handler's
    promise rejects, that is when an exception escapes its [catch]. *)
Record Outcome : Type := {
  db : list Order.t;
  sent : list Effect;
  unhandled : bool
}.

Definition on_callback (env : Env) (reference : string) (db : list Order.t)
  : Outcome :=
  let '(c, h) := payment_callback env reference
                   {| orders := db; out := []; headersSent := false |} in
  {| db := orders h; sent := out h;
     unhandled := match c with Throw _ => true | _ => false end |}.

(** The response the caller receives, if any. *)
Definition response (o : Outcome) : option string :=
  match List.filter (fun e => match e with res_redirect _ => true
                                          | _ => false end) (sent o) with
  | res_redirect l :: _ => Some l
  | _ => None
  end.

Definition broadcasts (o : Outcome) : list string :=
  flat_map (fun e => match e with clear_session s => [s] | _ => [] end)
           (sent o).

End Payment.

(* ------------------------------------------------------------------ *)
(** ** A running system *)

(** The seed of [initializeMenu]. *)
Definition sample_menu : list MenuItem.t :=
  [ {| MenuItem._id := "65f000000000000000000001";
       MenuItem.name := "Jollof Rice"; MenuItem.price := 1500;
       MenuItem.description := "Classic Nigerian Jollof" |};
    {| MenuItem._id := "65f000000000000000000002";
       MenuItem.name := "Pounded Yam"; MenuItem.price := 2000;
       MenuItem.description := "With Egusi Soup" |};
    {| MenuItem._id := "65f000000000000000000003";
       MenuItem.name := "Chicken Suya"; MenuItem.price := 1200;
       MenuItem.description := "Spicy grilled chicken" |};
    {| MenuItem._id := "65f000000000000000000004";
       MenuItem.name := "Chapman Cocktail"; MenuItem.price := 800;
       MenuItem.description := "Signature drink" |} ].

(** An environment in which every collaborator answers: the gateway
    returns an authorization URL for any request and verifies any
    reference as ["success"]. *)
Definition healthy (clock : Z) (fresh : ObjectId) : Env :=
  {| now := clock;
     newObjectId := fresh;
     menu := sample_menu;
     PAYSTACK_SECRET_KEY := true;
     initialize := fun d =>
       InitResolved (Some ("https://checkout.paystack.com/" ++ reference d));
     verify := fun _ => VerifyResolved "success";
     menuFindRejects := false;
     orderFindRejects := false;
     orderInsertRejects := false;
     orderUpdateRejects := false;
     orderDeleteRejects := false |}.

(** A session right after the connection handler has run. *)
Definition fresh_session (sid : string) : Session :=
  {| sessionId := sid; currentOrder := []; awaitingItemSelection := false |}.

(** Messages of one connection, each with the environment it runs in. *)
Fixpoint conversation (msgs : list (Env * string)) (s : Session)
    (db : list Order.t) : Session * list Order.t * list Effect :=
  match msgs with
  | [] => (s, db, [])
  | (env, input) :: rest =>
      let '(s1, db1, out1) :=
        Chatbot.on_user_message env (JsString.of_string input) s db in
      let '(s2, db2, out2) := conversation rest s1 db1 in
      (s2, db2, (out1 ++ out2)%list)
  end.

Definition pending_of (sid : string) (db : list Order.t) : list Order.t :=
  List.filter (Mongo.by_session_pending sid) db.

(* ------------------------------------------------------------------ *)
(** ** The vocabulary of the properties *)

(** [s] after [req.session.currentOrder = []]. *)
Definition cleared (s : Session) : Session :=
  {| sessionId := sessionId s; currentOrder := [];
     awaitingItemSelection := awaitingItemSelection s |}.

(** A session id as [uuidv4] draws them. *)
Definition sid0 : string := "123e4567-e89b-42d3-a456-426614174000".

(** [order.total] as the data model states it: the sum over the items of
    price times quantity. *)
Definition items_total (o : Order.t) : Z :=
  fold_right (fun i acc => Order.price i * Order.quantity i + acc) 0
             (Order.items o).

(** [env] with another gateway. *)
Definition with_gateway (init : PaymentData -> InitReply)
    (ver : string -> VerifyReply) (env : Env) : Env :=
  {| now := now env;
     newObjectId := newObjectId env;
     menu := menu env;
     PAYSTACK_SECRET_KEY := PAYSTACK_SECRET_KEY env;
     initialize := init;
     verify := ver;
     menuFindRejects := menuFindRejects env;
     orderFindRejects := orderFindRejects env;
     orderInsertRejects := orderInsertRejects env;
     orderUpdateRejects := orderUpdateRejects env;
     orderDeleteRejects := orderDeleteRejects env |}.

(** What the [catch] block of checkout answers when the gateway refuses:
    the gateway's message when it gave one, the generic payment failure
    otherwise. *)
Definition refusal (message : option string) : BotMessage :=
  match message with
  | Some m => if String.eqb m "" then PaymentFailed else PaymentError m
  | None => PaymentFailed
  end.

(** The location of the receipt redirect. *)
Definition receipt (reference : string) : string :=
  "/receipt?reference=" ++ reference.

(** A stored order of session [sid0], with its payment reference. *)
Definition order1 (st : Order.Status) : Order.t :=
  {| Order._id := "65f0000000000000000000a1";
     Order.sessionId := sid0;
     Order.items :=
       [ {| Order.menuItemId := "65f000000000000000000002";
            Order.name := "Pounded Yam";
            Order.price := 2000; Order.quantity := 1 |} ];
     Order.total := 2000;
     Order.status := st;
     Order.paymentReference := Some "order_65f0000000000000000000a1";
     Order.createdAt := 10;
     Order.updatedAt := 10 |}.

(** Its payment reference. *)
Definition ref1 : string := "order_65f0000000000000000000a1".

(** A pending order of another session, with a reference of its own. *)
Definition unpaid_elsewhere : Order.t :=
  {| Order._id := "65f0000000000000000000c7";
     Order.sessionId := "9b2e4567-e89b-42d3-a456-426614174999";
     Order.items :=
       [ {| Order.menuItemId := "65f000000000000000000004";
            Order.name := "Chapman Cocktail";
            Order.price := 800; Order.quantity := 1 |} ];
     Order.total := 800;
     Order.status := Order.pending;
     Order.paymentReference := Some "order_65f0000000000000000000c7";
     Order.createdAt := 2;
     Order.updatedAt := 2 |}.

(** A gateway that verifies every reference with the given status. *)
Definition verifying (status : string) (clock : Z) : Env :=
  with_gateway (fun _ => InitRejected None)
    (fun _ => VerifyResolved status)
    (healthy clock "65f0000000000000000000aa").

(** The callbacks of [envs], one after the other, for one reference:
    the orders at the end, the response of each run, the clear-session
    broadcasts in order, and whether some run ended in an unhandled
    exception. *)
Fixpoint callbacks (envs : list Env) (r : string) (db : list Order.t)
  : list Order.t * list (option string) * list string * bool :=
  match envs with
  | [] => (db, [], [], false)
  | env :: rest =>
      let o := Payment.on_callback env r db in
      let '(db', rs, bs, un) := callbacks rest r (Payment.db o) in
      (db', Payment.response o :: rs, (Payment.broadcasts o ++ bs)%list,
       Payment.unhandled o || un)
  end.

(** The orders that are pending in [before] and paid in [after]. *)
Definition transitions_to_paid (before after : list Order.t) : nat :=
  List.length
    (List.filter
       (fun o =>
          Order.is_pending o
          && existsb (fun o' =>
                        String.eqb (Order._id o') (Order._id o)
                        && Order.status_eqb (Order.status o') Order.paid)
                     after)
       before).

(** The writes of the [user-message] handler: a new pending order is
    inserted, a stored order gets its payment reference, or the pending
    orders of a session are deleted. *)
Inductive rewrites : list Order.t -> list Order.t -> Prop :=
| rw_refl db : rewrites db db
| rw_trans db1 db2 db3 :
    rewrites db1 db2 -> rewrites db2 db3 -> rewrites db1 db3
| rw_insert o db :
    Order.status o = Order.pending -> rewrites db (Mongo.insert o db)
| rw_reference id r t db :
    rewrites db
      (Mongo.updateOne (fun d => String.eqb (Order._id d) id)
         (Order.set_paymentReference r t) db)
| rw_deleteMany sid db :
    rewrites db (Mongo.deleteMany (Mongo.by_session_pending sid) db).

(** A statement respects the discipline when its effect on the orders
    is a sequence of such writes, however it completes. *)
Definition respects {A} (m : Js.M Chatbot.Turn A) : Prop :=
  forall t, rewrites (Chatbot.orders t) (Chatbot.orders (snd (m t))).

(** [o'] stands for [o]: same [_id], same status. *)
Definition same_order (o o' : Order.t) : Prop :=
  Order._id o' = Order._id o /\ Order.status o' = Order.status o.

(** The write of the reconciliation path: order by order, the [_id] is
    kept and the status is either kept or set to paid, the latter only on
    an order that carries the reference. *)
Definition marked_paid (r : string) (o o' : Order.t) : Prop :=
  Order._id o' = Order._id o
  /\ (Order.status o' = Order.status o
      \/ (Order.status o' = Order.paid /\ Order.has_reference r o = true)).

(** Every character class of [r] lies within [P]. *)
Fixpoint within (P : N -> bool) (r : Regex.t) : Prop :=
  match r with
  | Regex.Void | Regex.Eps => True
  | Regex.Class p => forall c, p c = true -> P c = true
  | Regex.Alt r1 r2 | Regex.Seq r1 r2 => within P r1 /\ within P r2
  | Regex.Star r1 => within P r1
  end.

(** "Only numbers and commas". *)
Definition digit_or_comma (c : N) : bool :=
  (((48 <=? c) && (c <=? 57)) || (c =? 44))%N.

(** One run of a handler: a message on some connection, in whatever state
    its session is, or a payment callback. *)
Inductive Event : Type :=
| Message (env : Env) (input : JsString.t) (s : Session)
| Callback (env : Env) (reference : string).

(** The orders after one run, and after a sequence of runs in any order. *)
Definition after (e : Event) (db : list Order.t) : list Order.t :=
  match e with
  | Message env input s =>
      snd (fst (Chatbot.on_user_message env input s db))
  | Callback env reference =>
      Payment.db (Payment.on_callback env reference db)
  end.

Definition after_all (es : list Event) (db : list Order.t) : list Order.t :=
  fold_left (fun db e => after e db) es db.

(** A gateway that refuses every initialization. *)
Definition refusing (clock : Z) : Env :=
  with_gateway
    (fun _ => InitRejected (Some "Duplicate Transaction Reference"))
    (fun _ => VerifyRejected)
    (healthy clock "65f0000000000000000000aa").

(* ------------------------------------------------------------------ *)
(** ** The receipt page, the session reset and the page's script *)

Module Receipt.

(** What [GET /receipt] answers: the page, with the values it
    interpolates, or an error status. *)
Inductive Page : Type :=
| Rendered (lines : list (string * Z)) (total : Z) (reference : string)
    (sessionId : string) (paymentDate : Z)
| NotFound                              (* 404, "Order not found" *)
| ServerError.                          (* 500, "Error generating receipt" *)

(** The filter [{ paymentReference, status: "paid" }]. *)
Definition by_reference_paid (r : string) (o : Order.t) : bool :=
  Order.has_reference r o && Order.status_eqb (Order.status o) Order.paid.

(** [app.get("/receipt", async (req, res) => { ... })]: the order is
    looked up, its lines are populated from the menu, and the page shows
    the name and price of each line, the total, the reference, the
    session id and [updatedAt] as the payment date. *)
Definition receipt_route (env : Env) (reference : string)
    (db : list Order.t) : Page :=
  if orderFindRejects env then ServerError
  else
    match Mongo.findOne (by_reference_paid reference) db with
    | None => NotFound
    | Some order =>
        if menuFindRejects env then ServerError
        else
          Rendered
            (List.map (fun item => (Order.name item, Order.price item))
                      (Order.items order))
            (Order.total order) reference (Order.sessionId order)
            (Order.updatedAt order)
    end.

End Receipt.

Module Connection.

(** [socket.on("clear-session", (sessionId) => { ... })]: when the id is
    the one of the connection's session, the session is regenerated with
    the id [uuid] that [uuidv4()] draws and an empty cart, and the options
    are sent again; otherwise nothing happens. *)
Definition on_clear_session (uuid sid : string) (s : Session)
  : Session * list Effect :=
  if String.eqb (sessionId s) sid
  then (fresh_session uuid, [bot_message Options])
  else (s, []).

End Connection.

Module Client.

(** [sendMessage] of the page: what is emitted as ["user-message"] for the
    value of the input field, if anything. *)
Definition sendMessage (value : JsString.t) : option JsString.t :=
  match JsString.trim value with
  | [] => None
  | message => Some message
  end.

End Client.

(** The orders of the other sessions. *)
Definition others (sid : string) (db : list Order.t) : list Order.t :=
  List.filter (fun o => negb (String.eqb (Order.sessionId o) sid)) db.

(** The inputs that the [switch] handles by a [case] of their own. *)
Definition reserved (cleanedInput : JsString.t) : bool :=
  existsb (fun c => Chatbot.case_ c cleanedInput) ["1"; "99"; "98"; "97"; "0"].

(** Newest first: [createdAt] never increases along the list. *)
Definition newest_first (l : list Order.t) : Prop :=
  Sorted (fun a b => Order.createdAt b <= Order.createdAt a) l.

(** The 1-based item numbers that a menu has. *)
Definition on_menu (menuItems : list MenuItem.t) (num : Number.t) : bool :=
  match num with
  | Number.Finite z => (1 <=? z) && (z <=? Z.of_nat (List.length menuItems))
  | _ => false
  end.

(** The item that a number on the menu designates. *)
Definition item_at (menuItems : list MenuItem.t) (num : Number.t)
  : option MenuItem.t :=
  match num with
  | Number.Finite z =>
      if on_menu menuItems num then nth_error menuItems (Z.to_nat (z - 1))
      else None
  | _ => None
  end.


(** The ids that the numbers of a selection designate, number by number. *)
Definition picked (menuItems : list MenuItem.t) (selected : list Number.t)
  : list ObjectId :=
  flat_map (fun num => match item_at menuItems num with
                       | Some item => [MenuItem._id item]
                       | None => []
                       end) selected.

(** The requests sent to [transaction/initialize] during a run. *)
Definition gateway_requests (out : list Effect) : list PaymentData :=
  flat_map (fun e => match e with
                     | paystack_initialize d => [d]
                     | _ => []
                     end) out.

(** A request as [case "99"] builds them, for at least the minimum. *)
Definition well_formed_request (d : PaymentData) : Prop :=
  email d = "customer@example.com"
  /\ callback_url d = "http://localhost:9000/payment/callback"
  /\ 10000 <= amount d
  /\ exists id, reference d = "order_" ++ id.

(** The responses sent during a callback, in order. *)
Definition responses (o : Payment.Outcome) : list string :=
  flat_map (fun e => match e with
                     | res_redirect l => [l]
                     | _ => []
                     end) (Payment.sent o).

(** The lines of the receipt of an order. *)
Definition receipt_lines (o : Order.t) : list (string * Z) :=
  List.map (fun item => (Order.name item, Order.price item)) (Order.items o).

(** A non-empty run of decimal digits. *)
Definition digit_run (u : JsString.t) : bool :=
  negb (Nat.eqb (List.length u) 0)
  && forallb (fun c => (48 <=? c) && (c <=? 57))%N u.

(** The number that a run of decimal digits writes. *)
Definition decimal (u : JsString.t) : Z :=
  Z.of_N (fold_left (fun a c => a * 10 + (c - 48))%N u 0%N).

(* ------------------------------------------------------------------ *)
(** * Properties *)

(** ** The catalog lookup of checkout *)

Lemma status_eqb_eq a b : Order.status_eqb a b = true <-> a = b.
Proof. destruct a, b; simpl; split; congruence. Qed.

Section CatalogLookup.

Variable catalog : list MenuItem.t.

(** MongoDB keeps [_id] unique within a collection. *)
Hypothesis unique_ids : NoDup (List.map MenuItem._id catalog).

(** The answer to [MenuItem.find({ _id: { $in: cart } })]. *)
Local Abbreviation lookup cart := (Mongo.find_id_in cart catalog).

Lemma id_in_In cart id : Mongo.id_in cart id = true <-> In id cart.
Proof.
  unfold Mongo.id_in. rewrite existsb_exists. split.
  - intros (x & Hx & E). apply String.eqb_eq in E. now subst.
  - intros H. exists id. split; [assumption | apply String.eqb_refl].
Qed.

Lemma lookup_ids cart :
  List.map MenuItem._id (lookup cart)
  = List.filter (Mongo.id_in cart) (List.map MenuItem._id catalog).
Proof. unfold Mongo.find_id_in. now rewrite filter_map_swap. Qed.

Lemma lookup_ids_NoDup cart : NoDup (List.map MenuItem._id (lookup cart)).
Proof. rewrite lookup_ids. now apply NoDup_filter. Qed.

Lemma lookup_ids_incl cart :
  incl (List.map MenuItem._id (lookup cart)) cart.
Proof.
  rewrite lookup_ids. intros id H. apply filter_In in H.
  now apply id_in_In.
Qed.

Lemma lookup_length_le cart :
  (List.length (lookup cart) <= List.length cart)%nat.
Proof.
  rewrite <- (length_map MenuItem._id).
  apply NoDup_incl_length; [apply lookup_ids_NoDup | apply lookup_ids_incl].
Qed.

(** When the lookup returns as many items as the cart holds, the cart
    has no repeated id ... *)
Lemma lookup_full_NoDup cart :
  List.length (lookup cart) = List.length cart -> NoDup cart.
Proof.
  intros E. apply NoDup_incl_NoDup with (l := List.map MenuItem._id (lookup cart)).
  - apply lookup_ids_NoDup.
  - rewrite length_map. lia.
  - apply lookup_ids_incl.
Qed.

(** ... and every id of the cart is in the catalog. *)
Lemma lookup_full_incl cart :
  List.length (lookup cart) = List.length cart ->
  incl cart (List.map MenuItem._id catalog).
Proof.
  intros E id H.
  assert (In id (List.map MenuItem._id (lookup cart))) as Hin.
  { eapply NoDup_length_incl; [apply lookup_ids_NoDup | | apply lookup_ids_incl | exact H].
    rewrite length_map. lia. }
  rewrite lookup_ids in Hin. now apply filter_In in Hin.
Qed.

(** Conversely a cart of distinct catalog ids is found in full, and the
    ids found are the cart up to order. *)
Lemma lookup_valid_Permutation cart :
  NoDup cart -> incl cart (List.map MenuItem._id catalog) ->
  Permutation (List.map MenuItem._id (lookup cart)) cart.
Proof.
  intros Hnd Hincl. apply Permutation_sym.
  apply NoDup_Permutation_bis; [assumption | | ].
  - rewrite length_map. apply lookup_length_le.
  - intros id H. rewrite lookup_ids. apply filter_In. split.
    + now apply Hincl.
    + now apply id_in_In.
Qed.

Lemma lookup_valid_length cart :
  NoDup cart -> incl cart (List.map MenuItem._id catalog) ->
  List.length (lookup cart) = List.length cart.
Proof.
  intros Hnd Hincl. rewrite <- (length_map MenuItem._id).
  apply Permutation_length. now apply lookup_valid_Permutation.
Qed.

Lemma lookup_short cart :
  ~ NoDup cart \/ (exists id, In id cart /\ ~ In id (List.map MenuItem._id catalog)) ->
  (List.length (lookup cart) =? List.length cart)%nat = false.
Proof.
  intros H. apply Nat.eqb_neq. intros E. destruct H as [H | (id & Hin & Hout)].
  - apply H. now apply lookup_full_NoDup.
  - apply Hout. now apply (lookup_full_incl cart E).
Qed.

End CatalogLookup.

(* ------------------------------------------------------------------ *)
(** ** Running the handlers symbolically *)

(** Unfolds the statement combinators and the state accessors, leaving
    the collection operations, the validators and the string functions
    folded. *)
Ltac js_run :=
  cbv [Js.bind Js.ret Js.throw Js.return_ Js.try_catch Js.get Js.modify
       Js.await
       Chatbot.emit Chatbot.set_session Chatbot.set_orders
       Chatbot.set_activeOrder Chatbot.set_currentOrder
       Chatbot.set_awaitingItemSelection Chatbot.sendOptions
       Chatbot.MenuItem_find Chatbot.MenuItem_find_in
       Chatbot.Order_findOne_pending Chatbot.Order_find_history
       Chatbot.Order_save_new Chatbot.Order_save_reference
       Chatbot.Order_deleteMany_pending
       Chatbot.axios_post_initialize
       Chatbot.session Chatbot.orders Chatbot.out Chatbot.activeOrder
       Payment.emit Payment.redirect_to Payment.axios_get_verify
       Payment.Order_findOneAndUpdate_paid
       Payment.orders Payment.out Payment.headersSent
       sessionId currentOrder awaitingItemSelection
       fst snd option_map].

(** Splits on the conditions a run is stuck on. *)
Ltac js_split :=
  repeat (js_run;
    match goal with
    | |- context [if ?b then _ else _] => destruct b eqn:?
    | |- context [match ?x with InitRejected _ => _ | InitResolved _ => _ end] =>
        destruct x eqn:?
    | |- context [match ?x with VerifyRejected => _ | VerifyResolved _ => _ end] =>
        destruct x eqn:?
    | |- context [match ?x with Some _ => _ | None => _ end] =>
        destruct x eqn:?
    end).

(** The dispatch of each reserved command. *)
Lemma dispatch_99 env :
  Chatbot.user_message env (JsString.of_string "99")
  = Js.try_catch (Chatbot.checkout env)
      (fun _ => Js.bind (Chatbot.emit (bot_message GenericError))
                        (fun _ => Chatbot.sendOptions)).
Proof. reflexivity. Qed.

Lemma dispatch_1 env :
  Chatbot.user_message env (JsString.of_string "1")
  = Js.try_catch (Chatbot.browse env)
      (fun _ => Js.bind (Chatbot.emit (bot_message GenericError))
                        (fun _ => Chatbot.sendOptions)).
Proof. reflexivity. Qed.

Lemma dispatch_0 env :
  Chatbot.user_message env (JsString.of_string "0")
  = Js.try_catch (Chatbot.cancel env)
      (fun _ => Js.bind (Chatbot.emit (bot_message GenericError))
                        (fun _ => Chatbot.sendOptions)).
Proof. reflexivity. Qed.

(* ------------------------------------------------------------------ *)
(** ** Input validation *)

(** The matcher decides the denotation. *)
Ltac invert_Matches H :=
  inversion H; subst; clear H.

Lemma nullable_Matches r : Regex.nullable r = true <-> Regex.Matches r [].
Proof.
  induction r as [| |p|r1 IH1 r2 IH2|r1 IH1 r2 IH2|r IH]; simpl.
  - split; [discriminate | intros H; inversion H].
  - split; [constructor | reflexivity].
  - split; [discriminate | intros H; inversion H].
  - rewrite orb_true_iff, IH1, IH2. split.
    + intros [H | H]; [now apply Regex.MAltL | now apply Regex.MAltR].
    + intros H. invert_Matches H; auto.
  - rewrite andb_true_iff, IH1, IH2. split.
    + intros [H1 H2]. now apply (Regex.MSeq r1 r2 [] []).
    + intros H. invert_Matches H.
      match goal with
      | E : (?u ++ ?v)%list = [] |- _ =>
          apply app_eq_nil in E; destruct E; subst u v
      end.
      auto.
  - split; [constructor | reflexivity].
Qed.

Lemma Matches_Star_cons r c s :
  Regex.Matches (Regex.Star r) (c :: s) ->
  exists u v, s = (u ++ v)%list /\ Regex.Matches r (c :: u)
              /\ Regex.Matches (Regex.Star r) v.
Proof.
  intros H. remember (Regex.Star r) as sr eqn:Er.
  remember (c :: s) as w eqn:Ew. revert s Ew.
  induction H as [| | | | |r'|r' u v Hu _ Hv IHv]; intros x Ew;
    try discriminate.
  injection Er as ->.
  destruct u as [|a u]; simpl in Ew.
  - apply IHv; [reflexivity | assumption].
  - injection Ew as -> <-. exists u, v. auto.
Qed.

Lemma Matches_Seq_cons r1 r2 c s :
  Regex.Matches (Regex.Seq r1 r2) (c :: s) ->
  (Regex.Matches r1 [] /\ Regex.Matches r2 (c :: s))
  \/ (exists u v, s = (u ++ v)%list /\ Regex.Matches r1 (c :: u)
                  /\ Regex.Matches r2 v).
Proof.
  intros H. invert_Matches H.
  match goal with
  | E : (?u ++ ?v)%list = c :: s, Hu : Regex.Matches r1 ?u,
    Hv : Regex.Matches r2 ?v |- _ =>
      destruct u as [|a u]; simpl in E;
      [ subst v; left; auto
      | injection E as -> <-; right; exists u, v; auto ]
  end.
Qed.

Lemma Matches_Seq_inv r1 r2 w :
  Regex.Matches (Regex.Seq r1 r2) w ->
  exists u v, w = (u ++ v)%list /\ Regex.Matches r1 u /\ Regex.Matches r2 v.
Proof. intros H. invert_Matches H. eauto. Qed.

Lemma deriv_Matches c r :
  forall s, Regex.Matches (Regex.deriv c r) s <-> Regex.Matches r (c :: s).
Proof.
  induction r as [| |p|r1 IH1 r2 IH2|r1 IH1 r2 IH2|r IH]; intros s; simpl.
  - split; intros H; inversion H.
  - split; intros H; inversion H.
  - split.
    + destruct (p c) eqn:E; intros H; invert_Matches H. now constructor.
    + intros H. invert_Matches H.
      match goal with Hp : p c = true |- _ => rewrite Hp end. constructor.
  - split.
    + intros H. invert_Matches H;
        [apply Regex.MAltL; now apply IH1 | apply Regex.MAltR; now apply IH2].
    + intros H. invert_Matches H;
        [apply Regex.MAltL; now apply IH1 | apply Regex.MAltR; now apply IH2].
  - split.
    + assert (Hseq : Regex.Matches (Regex.Seq (Regex.deriv c r1) r2) s ->
                     Regex.Matches (Regex.Seq r1 r2) (c :: s)).
      { intros H. apply Matches_Seq_inv in H.
        destruct H as (u & v & -> & Hu & Hv).
        apply IH1 in Hu. apply (Regex.MSeq r1 r2 (c :: u) v Hu Hv). }
      destruct (Regex.nullable r1) eqn:En; [|exact Hseq].
      intros H. invert_Matches H; [now apply Hseq|].
      apply (Regex.MSeq r1 r2 [] (c :: s)).
      * now apply nullable_Matches.
      * now apply IH2.
    + intros H. apply Matches_Seq_cons in H.
      destruct H as [[Hu Hv] | (u & v & -> & Hu & Hv)].
      * apply nullable_Matches in Hu. rewrite Hu.
        apply Regex.MAltR. now apply IH2.
      * assert (Regex.Matches (Regex.Seq (Regex.deriv c r1) r2) (u ++ v)).
        { apply Regex.MSeq; [now apply IH1 | assumption]. }
        destruct (Regex.nullable r1); [now apply Regex.MAltL | assumption].
  - split.
    + intros H. apply Matches_Seq_inv in H.
      destruct H as (u & v & -> & Hu & Hv).
      apply IH in Hu. apply (Regex.MStarS r (c :: u) v Hu Hv).
    + intros H. apply Matches_Star_cons in H.
      destruct H as (u & v & -> & Hu & Hv).
      apply Regex.MSeq; [now apply IH | assumption].
Qed.

Lemma test_Matches r s : Regex.test r s = true <-> Regex.Matches r s.
Proof.
  unfold Regex.test. revert r.
  induction s as [|c s IH]; intros r; simpl.
  - apply nullable_Matches.
  - rewrite IH. apply deriv_Matches.
Qed.

Lemma Matches_within P r s :
  within P r -> Regex.Matches r s -> Forall (fun c => P c = true) s.
Proof.
  intros Hw Hm. induction Hm; simpl in Hw.
  - constructor.
  - constructor; [now apply Hw | constructor].
  - apply IHHm. tauto.
  - apply IHHm. tauto.
  - apply Forall_app. split; [apply IHHm1 | apply IHHm2]; tauto.
  - constructor.
  - apply Forall_app. split; [now apply IHHm1 | now apply IHHm2].
Qed.

Lemma input_pattern_within : within digit_or_comma input_pattern.
Proof.
  unfold input_pattern, digit_or_comma.
  repeat split; intros c H; cbv beta in H;
    first [ apply N.eqb_eq in H; subst c; reflexivity
          | rewrite H; reflexivity ].
Qed.

(** What the pattern accepts is not empty and is made of digits and
    commas. *)
Lemma input_pattern_alphabet s :
  Regex.test input_pattern s = true ->
  s <> [] /\ Forall (fun c => digit_or_comma c = true) s.
Proof.
  intros H. split.
  - intros ->. discriminate H.
  - apply (Matches_within _ input_pattern); [apply input_pattern_within|].
    now apply test_Matches.
Qed.

(** So an input with any other character left after trimming, and the
    blank input, do not match. *)
Lemma foreign_input_does_not_match input :
  JsString.trim input = []
  \/ (exists c, In c (JsString.trim input) /\ digit_or_comma c = false) ->
  Regex.test input_pattern (JsString.trim input) = false.
Proof.
  intros H. destruct (Regex.test _ _) eqn:E; [|reflexivity].
  apply input_pattern_alphabet in E. destruct E as [Hne Hall].
  destruct H as [H | (c & Hin & Hc)]; [contradiction|].
  rewrite Forall_forall in Hall. specialize (Hall c Hin). congruence.
Qed.

(** C9. An input that, once trimmed, does not match the input pattern is
    answered with the validation error followed by the options menu, and
    the session (cart and selection flag) and the orders are left as they
    were. *)
Theorem invalid_input_is_rejected env input s db :
  Regex.test input_pattern (JsString.trim input) = false ->
  Chatbot.on_user_message env input s db
  = (s, db, [bot_message InvalidInput; bot_message Options]).
Proof.
  intros Hno.
  unfold Chatbot.on_user_message, Chatbot.user_message.
  cbv zeta. rewrite Hno. reflexivity.
Qed.

Lemma invalid_input_is_rejected_witness :
  let env := healthy 0 "65f0000000000000000000aa" in
  let s := {| sessionId := "123e4567-e89b-42d3-a456-426614174000";
              currentOrder := ["65f000000000000000000002"];
              awaitingItemSelection := true |} in
  Chatbot.on_user_message env (JsString.of_string " 1,,3 ") s []
  = (s, [], [bot_message InvalidInput; bot_message Options]).
Proof.
  intros env s.
  apply (invalid_input_is_rejected env (JsString.of_string " 1,,3 ") s []).
  vm_compute. reflexivity.
Defined.

(* ------------------------------------------------------------------ *)
(** ** Checkout: the availability check *)

(** The path of [case "99"] that ends at [return sendOptions()] inside the
    length comparison. *)
Lemma checkout_items_unavailable env s db :
  menuFindRejects env = false ->
  currentOrder s <> [] ->
  (List.length (Mongo.find_id_in (currentOrder s) (menu env))
   =? List.length (currentOrder s))%nat = false ->
  Chatbot.on_user_message env (JsString.of_string "99") s db
  = (cleared s, db, [bot_message ItemsUnavailable; bot_message Options]).
Proof.
  intros Hfind Hcart Hlen.
  unfold Chatbot.on_user_message. rewrite dispatch_99.
  destruct s as [sid cart aw]. unfold cleared.
  unfold Chatbot.checkout. js_run. cbn [currentOrder] in *.
  destruct cart as [|c cart]; [congruence|].
  change (0 <? List.length (c :: cart))%nat with true. cbv iota.
  rewrite Hfind. js_run. rewrite Hlen. reflexivity.
Qed.

(** C7. When the cart holds an id that is no longer in the catalog,
    checkout answers with the items-unavailable error and the options
    menu, empties the cart, leaves the orders untouched (no order is
    created) and sends nothing to the gateway. *)
Theorem checkout_with_vanished_item env s db :
  menuFindRejects env = false ->
  NoDup (List.map MenuItem._id (menu env)) ->
  (exists id, In id (currentOrder s)
              /\ ~ In id (List.map MenuItem._id (menu env))) ->
  Chatbot.on_user_message env (JsString.of_string "99") s db
  = (cleared s, db, [bot_message ItemsUnavailable; bot_message Options]).
Proof.
  intros Hfind Huniq Hgone.
  apply checkout_items_unavailable; [assumption | | ].
  - destruct Hgone as (id & Hin & _). intros E. rewrite E in Hin. contradiction.
  - apply lookup_short; [assumption | now right].
Qed.

(** C10. When the cart holds the same id twice, checkout answers with the
    items-unavailable error, empties the cart and creates no order,
    whether or not every id of the cart is in the catalog: the lookup
    returns each catalog item once, so its length falls short of the
    cart's. *)
Theorem checkout_with_repeated_item env s db :
  menuFindRejects env = false ->
  NoDup (List.map MenuItem._id (menu env)) ->
  ~ NoDup (currentOrder s) ->
  Chatbot.on_user_message env (JsString.of_string "99") s db
  = (cleared s, db, [bot_message ItemsUnavailable; bot_message Options]).
Proof.
  intros Hfind Huniq Hdup.
  apply checkout_items_unavailable; [assumption | | ].
  - intros E. apply Hdup. rewrite E. constructor.
  - apply lookup_short; [assumption | now left].
Qed.

Lemma sample_menu_unique : NoDup (List.map MenuItem._id sample_menu).
Proof. repeat constructor; simpl; intuition discriminate. Qed.

Lemma checkout_with_vanished_item_witness :
  let env := healthy 5 "65f0000000000000000000aa" in
  let s := {| sessionId := sid0;
              currentOrder := ["65f000000000000000000002";
                               "65f0000000000000000000ff"];
              awaitingItemSelection := false |} in
  Chatbot.on_user_message env (JsString.of_string "99") s []
  = (cleared s, [], [bot_message ItemsUnavailable; bot_message Options]).
Proof.
  intros env s.
  apply (checkout_with_vanished_item env s []).
  - reflexivity.
  - exact sample_menu_unique.
  - exists "65f0000000000000000000ff". split.
    + simpl. auto.
    + simpl. intuition discriminate.
Defined.

(** The selection ["2,2"] typed after browsing puts the second menu item
    in the cart twice; the checkout that follows is refused. *)
Lemma checkout_with_repeated_item_witness :
  let env := healthy 5 "65f0000000000000000000aa" in
  let '(s, db, _) := conversation [(env, "1"); (env, "2,2")]
                       (fresh_session sid0) [] in
  currentOrder s = ["65f000000000000000000002"; "65f000000000000000000002"]
  /\ Chatbot.on_user_message env (JsString.of_string "99") s db
     = (cleared s, db, [bot_message ItemsUnavailable; bot_message Options]).
Proof.
  cbv zeta.
  set (r := conversation _ _ _). vm_compute in r. subst r. cbv iota beta.
  split; [reflexivity|].
  apply (checkout_with_repeated_item (healthy 5 "65f0000000000000000000aa")).
  - reflexivity.
  - exact sample_menu_unique.
  - intros H. inversion H as [|x l Hnot Hrest]. apply Hnot. simpl. auto.
Defined.

(* ------------------------------------------------------------------ *)
(** ** Checkout: creating the order and calling the gateway *)

(** The driver draws for a new document an [_id] that no stored order
    has; these are the collection operations on such a document. *)
Lemma fresh_eqb db (o d : Order.t) :
  ~ In (Order._id o) (List.map Order._id db) ->
  In d db -> String.eqb (Order._id d) (Order._id o) = false.
Proof.
  intros fresh Hin. apply String.eqb_neq. intros E. apply fresh.
  rewrite <- E. now apply in_map.
Qed.

Lemma updateOne_inserted db (o : Order.t) upd :
  ~ In (Order._id o) (List.map Order._id db) ->
  Mongo.updateOne (fun d => String.eqb (Order._id d) (Order._id o)) upd
    (Mongo.insert o db)
  = (db ++ [upd o])%list.
Proof.
  intros fresh. pose proof (fresh_eqb db o) as Hf.
  specialize (fun d => Hf d fresh). clear fresh. unfold Mongo.insert.
  induction db as [|d rest IH]; simpl.
  - now rewrite String.eqb_refl.
  - rewrite (Hf d) by (left; reflexivity).
    f_equal. apply IH. intros d' Hin. apply Hf. now right.
Qed.

Lemma sum_prices_from items acc :
  fold_left (fun sum item => sum + MenuItem.price item) items acc
  = acc + fold_right (fun i a => MenuItem.price i + a) 0 items.
Proof.
  revert acc. induction items as [|i items IH]; intros acc; simpl.
  - lia.
  - rewrite IH. lia.
Qed.

Lemma new_Order_total env sid items :
  Order.total (Chatbot.new_Order env sid items)
  = items_total (Chatbot.new_Order env sid items).
Proof.
  unfold items_total. simpl. unfold Chatbot.sum_prices.
  rewrite sum_prices_from. simpl.
  induction items as [|i items IH]; simpl; [reflexivity | lia].
Qed.

Lemma validate_total o :
  Order.validate o = true -> (Order.total o <? 100) = false.
Proof.
  unfold Order.validate. intros H. apply andb_prop in H. destruct H as [_ H].
  apply Z.leb_le in H. apply Z.ltb_ge. exact H.
Qed.

(** The run of [case "99"] that places an order: the cart is found in
    full, the order is accepted and inserted, and the gateway answers
    with an authorization URL. *)
Lemma checkout_placed env s db url :
  let o := Chatbot.new_Order env (sessionId s)
             (Mongo.find_id_in (currentOrder s) (menu env)) in
  currentOrder s <> [] ->
  (List.length (Mongo.find_id_in (currentOrder s) (menu env))
   =? List.length (currentOrder s))%nat = true ->
  menuFindRejects env = false ->
  Order.validate o = true ->
  orderInsertRejects env = false ->
  ~ In (newObjectId env) (List.map Order._id db) ->
  PAYSTACK_SECRET_KEY env = true ->
  initialize env (Chatbot.paymentData_of o) = InitResolved (Some url) ->
  url <> "" ->
  orderUpdateRejects env = false ->
  Chatbot.on_user_message env (JsString.of_string "99") s db
  = (cleared s,
     Mongo.insert
       (Order.set_paymentReference ("order_" ++ Order._id o) (now env) o) db,
     [paystack_initialize (Chatbot.paymentData_of o); redirect url]).
Proof.
  intros o Hne Hlen Hfind Hval Hins Hfresh Hkey Hinit Hurl Hupd.
  assert (Htot := validate_total _ Hval).
  apply String.eqb_neq in Hurl. subst o.
  unfold Chatbot.on_user_message. rewrite dispatch_99.
  destruct s as [sid cart aw]. cbn [currentOrder sessionId] in *.
  unfold cleared. cbn [currentOrder sessionId awaitingItemSelection].
  unfold Chatbot.checkout. js_run.
  destruct cart as [|c cart]; [congruence|].
  change (0 <? List.length (c :: cart))%nat with true. cbv iota.
  rewrite Hfind. js_run. rewrite Hlen. cbn [negb]. js_run.
  rewrite Hval. js_run. rewrite Hins. js_run.
  rewrite Htot, Hkey. cbn [negb]. js_run.
  change (Order.has_reference _ (Chatbot.new_Order _ _ _)) with false.
  js_run. rewrite Hinit. js_run. rewrite Hurl. js_run.
  rewrite Hupd. js_run.
  rewrite updateOne_inserted by exact Hfresh. reflexivity.
Qed.

(** Placing an order adds one pending order to those of the session,
    whether or not the session already has one. *)
Lemma checkout_adds_a_pending_order env s db url :
  let o := Chatbot.new_Order env (sessionId s)
             (Mongo.find_id_in (currentOrder s) (menu env)) in
  currentOrder s <> [] ->
  (List.length (Mongo.find_id_in (currentOrder s) (menu env))
   =? List.length (currentOrder s))%nat = true ->
  menuFindRejects env = false ->
  Order.validate o = true ->
  orderInsertRejects env = false ->
  ~ In (newObjectId env) (List.map Order._id db) ->
  PAYSTACK_SECRET_KEY env = true ->
  initialize env (Chatbot.paymentData_of o) = InitResolved (Some url) ->
  url <> "" ->
  orderUpdateRejects env = false ->
  pending_of (sessionId s)
    (snd (fst (Chatbot.on_user_message env (JsString.of_string "99") s db)))
  = (pending_of (sessionId s) db
     ++ [Order.set_paymentReference ("order_" ++ Order._id o) (now env) o])%list.
Proof.
  intros o Hne Hlen Hfind Hval Hins Hfresh Hkey Hinit Hurl Hupd.
  rewrite (checkout_placed env s db url) by assumption.
  cbn [fst snd]. unfold pending_of, Mongo.insert. rewrite filter_app.
  f_equal. simpl. unfold Mongo.by_session_pending. simpl.
  now rewrite String.eqb_refl.
Qed.

(** C8. A checkout that creates an order from a non-empty cart of distinct
    catalog items: the order's total is the sum of its snapshotted
    prices, its items are the catalog items of exactly the ids selected;
    the gateway's initialize is called with the total times 100 and the
    reference ["order_" ++ _id]; and when the gateway answers with an
    authorization URL the order is stored with that reference and the
    redirect to the URL is emitted. *)
Theorem checkout_creates_order env s db url :
  let cart := currentOrder s in
  let o := Chatbot.new_Order env (sessionId s)
             (Mongo.find_id_in cart (menu env)) in
  let paymentData :=
    {| email := "customer@example.com";
       amount := Order.total o * 100;
       reference := "order_" ++ Order._id o;
       callback_url := "http://localhost:9000/payment/callback" |} in
  (* a non-empty, fully valid cart *)
  cart <> [] ->
  NoDup cart ->
  incl cart (List.map MenuItem._id (menu env)) ->
  NoDup (List.map MenuItem._id (menu env)) ->
  (* the order is created *)
  menuFindRejects env = false ->
  Order.validate o = true ->
  orderInsertRejects env = false ->
  ~ In (newObjectId env) (List.map Order._id db) ->
  PAYSTACK_SECRET_KEY env = true ->
  (* its total and its items *)
  Order.total o = items_total o
  /\ Permutation (List.map Order.menuItemId (Order.items o)) cart
  /\ (forall i, In i (Order.items o) ->
        exists m, In m (menu env) /\ i = Chatbot.snapshot m)
  (* the gateway call *)
  /\ (exists s' db' rest,
        Chatbot.on_user_message env (JsString.of_string "99") s db
        = (s', db', paystack_initialize paymentData :: rest))
  (* a well-formed answer *)
  /\ (initialize env paymentData = InitResolved (Some url) ->
      url <> "" ->
      orderUpdateRejects env = false ->
      Chatbot.on_user_message env (JsString.of_string "99") s db
      = (cleared s,
         (db ++ [Order.set_paymentReference (reference paymentData)
                   (now env) o])%list,
         [paystack_initialize paymentData; redirect url])).
Proof.
  intros cart o paymentData Hne Hnd Hincl Huniq Hfind Hval Hins Hfresh Hkey.
  assert (Hlen : (List.length (Mongo.find_id_in cart (menu env))
                  =? List.length cart)%nat = true).
  { apply Nat.eqb_eq. now apply lookup_valid_length. }
  split; [apply new_Order_total|].
  split.
  { simpl. rewrite map_map. simpl.
    change (fun x => MenuItem._id x) with MenuItem._id.
    now apply lookup_valid_Permutation. }
  split.
  { intros i Hi. simpl in Hi. apply in_map_iff in Hi.
    destruct Hi as (m & <- & Hm). exists m. split; [|reflexivity].
    unfold Mongo.find_id_in in Hm. now apply filter_In in Hm. }
  split.
  2:{ intros Hinit Hurl Hupd.
      apply (checkout_placed env s db url); assumption. }
  assert (Htot := validate_total _ Hval).
  subst o paymentData cart.
  fold (Chatbot.paymentData_of
          (Chatbot.new_Order env (sessionId s)
             (Mongo.find_id_in (currentOrder s) (menu env)))).
  unfold Chatbot.on_user_message. rewrite dispatch_99.
  destruct s as [sid cart aw]. cbn [currentOrder sessionId] in *.
  unfold Chatbot.checkout. js_run.
  destruct cart as [|c cart]; [congruence|].
  change (0 <? List.length (c :: cart))%nat with true. cbv iota.
  rewrite Hfind. js_run. rewrite Hlen. cbn [negb]. js_run.
  rewrite Hval. js_run. rewrite Hins. js_run.
  rewrite Htot, Hkey. cbn [negb]. js_run.
  change (Order.has_reference _ (Chatbot.new_Order _ _ _)) with false.
  js_split. all: cbn [app]. all: do 3 eexists; reflexivity.
Qed.

Lemma checkout_creates_order_witness :
  let env := healthy 12 "65f0000000000000000000aa" in
  let s := {| sessionId := sid0;
              currentOrder := ["65f000000000000000000004";
                               "65f000000000000000000002"];
              awaitingItemSelection := false |} in
  let paymentData :=
    {| email := "customer@example.com";
       amount := 280000;
       reference := "order_65f0000000000000000000aa";
       callback_url := "http://localhost:9000/payment/callback" |} in
  Chatbot.on_user_message env (JsString.of_string "99") s []
  = (cleared s,
     [ {| Order._id := "65f0000000000000000000aa";
          Order.sessionId := sid0;
          Order.items :=
            [ {| Order.menuItemId := "65f000000000000000000002";
                 Order.name := "Pounded Yam";
                 Order.price := 2000; Order.quantity := 1 |};
              {| Order.menuItemId := "65f000000000000000000004";
                 Order.name := "Chapman Cocktail";
                 Order.price := 800; Order.quantity := 1 |} ];
          Order.total := 2800;
          Order.status := Order.pending;
          Order.paymentReference := Some "order_65f0000000000000000000aa";
          Order.createdAt := 12;
          Order.updatedAt := 12 |} ],
     [paystack_initialize paymentData;
      redirect "https://checkout.paystack.com/order_65f0000000000000000000aa"]).
Proof.
  intros env s paymentData.
  destruct (checkout_creates_order env s []
              "https://checkout.paystack.com/order_65f0000000000000000000aa")
    as (_ & _ & _ & _ & Hok).
  - discriminate.
  - repeat constructor; simpl; intuition discriminate.
  - intros id H. simpl in H. simpl. intuition.
  - exact sample_menu_unique.
  - reflexivity.
  - vm_compute. reflexivity.
  - reflexivity.
  - simpl. tauto.
  - reflexivity.
  - apply Hok; [reflexivity | discriminate | reflexivity].
Defined.

(* ------------------------------------------------------------------ *)
(** ** The payment callback *)

Lemma updateOne_none {A} (q : A -> bool) upd coll :
  Mongo.findOne q coll = None -> Mongo.updateOne q upd coll = coll.
Proof.
  unfold Mongo.findOne.
  induction coll as [|d rest IH]; simpl; [reflexivity|].
  destruct (q d); [discriminate|]. intros H. now rewrite IH.
Qed.

(** The gateway does not report success: nothing is written and nothing
    is sent back. *)
Lemma callback_not_success env r db status :
  verify env r = VerifyResolved status ->
  status <> "success" ->
  Payment.on_callback env r db
  = {| Payment.db := db; Payment.sent := [paystack_verify r];
       Payment.unhandled := false |}.
Proof.
  intros Hv Hs. apply String.eqb_neq in Hs.
  unfold Payment.on_callback, Payment.payment_callback. js_run.
  rewrite Hv. js_run. rewrite Hs. reflexivity.
Qed.

(** The verification itself fails: the error redirect. *)
Lemma callback_verify_rejected env r db :
  verify env r = VerifyRejected ->
  Payment.on_callback env r db
  = {| Payment.db := db;
       Payment.sent := [paystack_verify r; res_redirect "/?payment=error"];
       Payment.unhandled := false |}.
Proof.
  intros Hv.
  unfold Payment.on_callback, Payment.payment_callback. js_run.
  rewrite Hv. reflexivity.
Qed.

(** The gateway reports success and an order carries the reference. *)
Lemma callback_success_found env r db o :
  verify env r = VerifyResolved "success" ->
  orderUpdateRejects env = false ->
  Mongo.findOne (Order.has_reference r) db = Some o ->
  Payment.on_callback env r db
  = {| Payment.db :=
         Mongo.updateOne (Order.has_reference r)
           (Order.set_status Order.paid (now env)) db;
       Payment.sent :=
         [paystack_verify r; res_redirect (receipt r);
          clear_session (Order.sessionId o)];
       Payment.unhandled := false |}.
Proof.
  intros Hv Hu Hf.
  unfold Payment.on_callback, Payment.payment_callback. js_run.
  rewrite Hv. js_run. change ("success" =? "success")%string with true.
  cbv iota. rewrite Hu. js_run. rewrite Hf. reflexivity.
Qed.

(** The gateway reports success and no order carries the reference: the
    receipt redirect has gone out when [order.sessionId] throws, so the
    redirect of the [catch] block throws in turn. *)
Lemma callback_success_not_found env r db :
  verify env r = VerifyResolved "success" ->
  orderUpdateRejects env = false ->
  Mongo.findOne (Order.has_reference r) db = None ->
  Payment.on_callback env r db
  = {| Payment.db := db;
       Payment.sent := [paystack_verify r; res_redirect (receipt r)];
       Payment.unhandled := true |}.
Proof.
  intros Hv Hu Hf.
  unfold Payment.on_callback, Payment.payment_callback. js_run.
  rewrite Hv. js_run. change ("success" =? "success")%string with true.
  cbv iota. rewrite Hu. js_run. rewrite Hf.
  rewrite (updateOne_none _ _ _ Hf). reflexivity.
Qed.

(** C2. At a callback whose verification reports ["failed"], the handler
    leaves the orders as they are but sends no response at all: the [if]
    on the status has no [else], so neither redirect is reached. *)
Theorem callback_not_success_sends_nothing :
  let r := Payment.on_callback (verifying "failed" 20) ref1
             [order1 Order.pending] in
  Payment.db r = [order1 Order.pending]
  /\ Payment.sent r = [paystack_verify ref1]
  /\ Payment.response r = None
  /\ Payment.unhandled r = false.
Proof.
  cbv zeta.
  rewrite (callback_not_success _ _ _ "failed") by (reflexivity || discriminate).
  repeat split.
Qed.

(** C4. At a callback whose reference no order carries and which the
    gateway verifies as a success, no order is changed and no
    clear-session is broadcast, but the response is the redirect to the
    receipt page, and the handler ends in an exception that escapes its
    [catch]: [order] is null when [order.sessionId] is read, and the
    error redirect of the [catch] block comes after the response. *)
Theorem callback_unknown_reference_is_not_graceful :
  let r := Payment.on_callback (verifying "success" 20)
             "order_65f0000000000000000000b2" [order1 Order.pending] in
  Payment.db r = [order1 Order.pending]
  /\ Payment.broadcasts r = []
  /\ Payment.response r
     = Some "/receipt?reference=order_65f0000000000000000000b2"
  /\ Payment.unhandled r = true.
Proof.
  cbv zeta.
  rewrite callback_success_not_found by reflexivity.
  repeat split.
Qed.

(** *** Repeated callbacks *)

Lemma findOne_updateOne {A} (q : A -> bool) upd coll d :
  (forall x, q (upd x) = q x) ->
  Mongo.findOne q coll = Some d ->
  Mongo.findOne q (Mongo.updateOne q upd coll) = Some (upd d).
Proof.
  intros Hq. unfold Mongo.findOne.
  induction coll as [|x rest IH]; simpl; [discriminate|].
  destruct (q x) eqn:E; simpl.
  - intros [= <-]. now rewrite Hq, E.
  - rewrite E. exact IH.
Qed.

Lemma updateOne_absorb {A} (q : A -> bool) f g coll :
  (forall x, q (f x) = q x) ->
  (forall x, g (f x) = g x) ->
  Mongo.updateOne q g (Mongo.updateOne q f coll) = Mongo.updateOne q g coll.
Proof.
  intros Hq Hg.
  induction coll as [|x rest IH]; simpl; [reflexivity|].
  destruct (q x) eqn:E; simpl.
  - now rewrite Hq, E, Hg.
  - now rewrite E, IH.
Qed.

Lemma last_cons {A} (a d : A) l : last (a :: l) d = last l a.
Proof.
  revert a d. induction l as [|b l IH]; intros a d; [reflexivity|].
  change (last (a :: b :: l) d) with (last (b :: l) d).
  now rewrite (IH b d), (IH b a).
Qed.

Lemma has_reference_set_status r st t o :
  Order.has_reference r (Order.set_status st t o) = Order.has_reference r o.
Proof. reflexivity. Qed.

Lemma set_status_absorb st t1 t2 o :
  Order.set_status st t2 (Order.set_status st t1 o) = Order.set_status st t2 o.
Proof. reflexivity. Qed.

(** C3, as the code has it. When the gateway verifies a reference that
    an order carries as a success one or more times, the orders at the
    end are those that a single callback leaves when run at the time of
    the last one: the first order carrying the reference is paid, and a
    repeat changes nothing but its [updatedAt]; every run answers with
    the redirect to the receipt and none ends in an error; and
    clear-session is broadcast once per callback. *)
Theorem repeated_callbacks env envs r db o :
  (forall e, In e (env :: envs) ->
     verify e r = VerifyResolved "success" /\ orderUpdateRejects e = false) ->
  Mongo.findOne (Order.has_reference r) db = Some o ->
  callbacks (env :: envs) r db
  = (Mongo.updateOne (Order.has_reference r)
       (Order.set_status Order.paid (now (last envs env))) db,
     repeat (Some (receipt r)) (S (List.length envs)),
     repeat (Order.sessionId o) (S (List.length envs)),
     false).
Proof.
  revert env db o.
  induction envs as [|e2 rest IH]; intros env db o Hall Hfound.
  - destruct (Hall env (or_introl eq_refl)) as [Hv Hu].
    simpl. now rewrite (callback_success_found env r db o Hv Hu Hfound).
  - destruct (Hall env (or_introl eq_refl)) as [Hv Hu].
    change (callbacks (env :: e2 :: rest) r db)
      with (let o1 := Payment.on_callback env r db in
            let '(db', rs, bs, un) :=
              callbacks (e2 :: rest) r (Payment.db o1) in
            (db', Payment.response o1 :: rs,
             (Payment.broadcasts o1 ++ bs)%list,
             Payment.unhandled o1 || un)).
    cbv zeta.
    rewrite (callback_success_found env r db o Hv Hu Hfound).
    cbn [Payment.db Payment.unhandled].
    rewrite (IH e2 _ (Order.set_status Order.paid (now env) o)).
    + rewrite updateOne_absorb
        by (intros;
            (apply has_reference_set_status || apply set_status_absorb)).
      rewrite last_cons. reflexivity.
    + intros e He. apply Hall. now right.
    + apply findOne_updateOne; [|exact Hfound].
      intros x. apply has_reference_set_status.
Qed.

Lemma repeated_callbacks_witness :
  callbacks [verifying "success" 20; verifying "success" 25] ref1
    [order1 Order.pending]
  = ([Order.set_status Order.paid 25 (order1 Order.pending)],
     [Some (receipt ref1); Some (receipt ref1)],
     [sid0; sid0], false).
Proof.
  apply (repeated_callbacks (verifying "success" 20)
           [verifying "success" 25] ref1 [order1 Order.pending]
           (order1 Order.pending)).
  - intros e [<- | [<- | []]]; split; reflexivity.
  - reflexivity.
Defined.

(** C3, as stated, fails: the second callback finds the order already
    paid, so there is one transition to paid, and two broadcasts. *)
Lemma second_callback_broadcasts_again :
  let first := Payment.on_callback (verifying "success" 20) ref1
                 [order1 Order.pending] in
  let second := Payment.on_callback (verifying "success" 25) ref1
                  (Payment.db first) in
  (transitions_to_paid [order1 Order.pending] (Payment.db first)
   + transitions_to_paid (Payment.db first) (Payment.db second) = 1)%nat
  /\ List.length (Payment.broadcasts first ++ Payment.broadcasts second) = 2%nat.
Proof. vm_compute. split; reflexivity. Qed.

(* ------------------------------------------------------------------ *)
(** ** How the conversation path writes to the orders *)

Create HintDb respects.

Lemma respects_ret {A} (a : A) : respects (Js.ret a).
Proof. intros t. apply rw_refl. Qed.

Lemma respects_throw {A} e : respects (@Js.throw _ A e).
Proof. intros t. apply rw_refl. Qed.

Lemma respects_return {A} : respects (@Js.return_ _ A).
Proof. intros t. apply rw_refl. Qed.

Lemma respects_get : respects Js.get.
Proof. intros t. apply rw_refl. Qed.

Lemma respects_await b e : respects (Js.await b e).
Proof. intros t. destruct b; apply rw_refl. Qed.

Lemma respects_bind {A B} (m : Js.M Chatbot.Turn A)
    (k : A -> Js.M Chatbot.Turn B) :
  respects m -> (forall a, respects (k a)) -> respects (Js.bind m k).
Proof.
  intros Hm Hk t. unfold Js.bind. specialize (Hm t).
  destruct (m t) as [c t']. destruct c as [a| |e]; simpl in *.
  - eapply rw_trans; [exact Hm | apply Hk].
  - exact Hm.
  - exact Hm.
Qed.

Lemma respects_try_catch {A} (body : Js.M Chatbot.Turn A) handler :
  respects body -> (forall e, respects (handler e)) ->
  respects (Js.try_catch body handler).
Proof.
  intros Hm Hk t. unfold Js.try_catch. specialize (Hm t).
  destruct (body t) as [c t']. destruct c as [a| |e]; simpl in *.
  - exact Hm.
  - exact Hm.
  - eapply rw_trans; [exact Hm | apply Hk].
Qed.

Lemma respects_emit e : respects (Chatbot.emit e).
Proof. intros t. apply rw_refl. Qed.

Lemma respects_set_session f : respects (Chatbot.set_session f).
Proof. intros t. apply rw_refl. Qed.

Lemma respects_set_activeOrder o : respects (Chatbot.set_activeOrder o).
Proof. intros t. apply rw_refl. Qed.

Lemma respects_set_orders f :
  (forall db, rewrites db (f db)) -> respects (Chatbot.set_orders f).
Proof. intros Hf t. apply Hf. Qed.

#[local] Hint Resolve respects_ret respects_throw respects_return
  respects_get respects_await respects_emit respects_set_session
  respects_set_activeOrder : respects.

(** Walks through a statement: sequences, handlers, branches. *)
Ltac respects_walk :=
  repeat first
    [ progress auto with respects
    | apply respects_bind; [|intros ?]
    | apply respects_try_catch; [|intros ?]
    | match goal with
      | |- respects (if ?b then _ else _) => destruct b
      | |- respects (match ?x with _ => _ end) => destruct x
      end ].

Lemma respects_set_currentOrder c : respects (Chatbot.set_currentOrder c).
Proof. apply respects_set_session. Qed.

Lemma respects_set_awaitingItemSelection b :
  respects (Chatbot.set_awaitingItemSelection b).
Proof. apply respects_set_session. Qed.

Lemma respects_sendOptions : respects Chatbot.sendOptions.
Proof. apply respects_emit. Qed.

Lemma respects_MenuItem_find env : respects (Chatbot.MenuItem_find env).
Proof. unfold Chatbot.MenuItem_find. respects_walk. Qed.

Lemma respects_MenuItem_find_in env ids :
  respects (Chatbot.MenuItem_find_in env ids).
Proof. unfold Chatbot.MenuItem_find_in. respects_walk. Qed.

Lemma respects_Order_findOne_pending env sid :
  respects (Chatbot.Order_findOne_pending env sid).
Proof. unfold Chatbot.Order_findOne_pending. respects_walk. Qed.

Lemma respects_Order_find_history env sid :
  respects (Chatbot.Order_find_history env sid).
Proof. unfold Chatbot.Order_find_history. respects_walk. Qed.

Lemma respects_Order_save_new env sid items :
  respects (Chatbot.Order_save_new env (Chatbot.new_Order env sid items)).
Proof.
  unfold Chatbot.Order_save_new. respects_walk.
  apply respects_set_orders. intros db. now apply rw_insert.
Qed.

Lemma respects_Order_save_reference env o r :
  respects (Chatbot.Order_save_reference env o r).
Proof.
  unfold Chatbot.Order_save_reference. respects_walk.
  apply respects_set_orders. intros db. apply rw_reference.
Qed.

Lemma respects_Order_deleteMany_pending env sid :
  respects (Chatbot.Order_deleteMany_pending env sid).
Proof.
  unfold Chatbot.Order_deleteMany_pending. respects_walk.
  apply respects_set_orders. intros db. apply rw_deleteMany.
Qed.

Lemma respects_axios_post_initialize env d :
  respects (Chatbot.axios_post_initialize env d).
Proof. unfold Chatbot.axios_post_initialize. respects_walk. Qed.

#[local] Hint Resolve respects_set_currentOrder
  respects_set_awaitingItemSelection respects_sendOptions
  respects_MenuItem_find respects_MenuItem_find_in
  respects_Order_findOne_pending respects_Order_find_history
  respects_Order_save_new respects_Order_save_reference
  respects_Order_deleteMany_pending
  respects_axios_post_initialize : respects.

Lemma respects_browse env : respects (Chatbot.browse env).
Proof. unfold Chatbot.browse. respects_walk. Qed.

Lemma respects_checkout env : respects (Chatbot.checkout env).
Proof. unfold Chatbot.checkout. cbv zeta. respects_walk. Qed.

Lemma respects_history env : respects (Chatbot.history env).
Proof. unfold Chatbot.history. respects_walk. Qed.

Lemma respects_review env : respects (Chatbot.review env).
Proof. unfold Chatbot.review. respects_walk. Qed.

Lemma respects_cancel env : respects (Chatbot.cancel env).
Proof. unfold Chatbot.cancel. respects_walk. Qed.

Lemma respects_selection env input : respects (Chatbot.selection env input).
Proof. unfold Chatbot.selection. cbv zeta. respects_walk. Qed.

#[local] Hint Resolve respects_browse respects_checkout respects_history
  respects_review respects_cancel respects_selection : respects.

Lemma respects_user_message env input :
  respects (Chatbot.user_message env input).
Proof. unfold Chatbot.user_message. cbv zeta. respects_walk. Qed.

(** Whatever the message and the environment, the orders after the
    handler come from the orders before by the writes of [rewrites]. *)
Lemma on_user_message_rewrites env input s db :
  rewrites db (snd (fst (Chatbot.on_user_message env input s db))).
Proof.
  unfold Chatbot.on_user_message. simpl.
  apply (respects_user_message env input
           {| Chatbot.session := s; Chatbot.orders := db;
              Chatbot.out := []; Chatbot.activeOrder := None |}).
Qed.

(** *** What the writes preserve *)

Lemma updateOne_In {A} (q : A -> bool) upd coll x :
  In x coll ->
  In x (Mongo.updateOne q upd coll) \/ In (upd x) (Mongo.updateOne q upd coll).
Proof.
  induction coll as [|d rest IH]; simpl; [tauto|].
  intros [-> | Hin]; destruct (q _) eqn:E; simpl; auto.
  destruct (IH Hin); auto.
Qed.

Lemma In_updateOne {A} (q : A -> bool) upd coll y :
  In y (Mongo.updateOne q upd coll) ->
  In y coll \/ exists x, In x coll /\ y = upd x.
Proof.
  induction coll as [|d rest IH]; simpl; [tauto|].
  destruct (q d) eqn:E; simpl.
  - intros [<- | Hin]; eauto.
  - intros [<- | Hin]; auto.
    destruct (IH Hin) as [H | (x & Hx & ->)]; eauto.
Qed.

Lemma not_pending o :
  Order.status o <> Order.pending -> Order.is_pending o = false.
Proof.
  unfold Order.is_pending. intros H.
  destruct (Order.status_eqb (Order.status o) Order.pending) eqn:E;
    [|reflexivity].
  apply status_eqb_eq in E. contradiction.
Qed.

(** An order that is not pending is neither removed nor given another
    status by the writes of the conversation path ... *)
Lemma rewrites_keep_settled db db' :
  rewrites db db' ->
  forall o, In o db -> Order.status o <> Order.pending ->
  exists o', In o' db' /\ same_order o o'.
Proof.
  unfold same_order.
  induction 1 as [db | db1 db2 db3 _ IH1 _ IH2 | x db Hx | id r t db
                  | sid db]; intros o Hin Hst.
  - eauto.
  - destruct (IH1 o Hin Hst) as (o1 & Hin1 & Hid1 & Hst1).
    destruct (IH2 o1 Hin1) as (o2 & Hin2 & Hid2 & Hst2); [congruence|].
    exists o2. repeat split; congruence.
  - exists o. unfold Mongo.insert. rewrite in_app_iff. auto.
  - destruct (updateOne_In (fun d => String.eqb (Order._id d) id)
                (Order.set_paymentReference r t) db o Hin); eauto.
  - exists o. repeat split. unfold Mongo.deleteMany. apply filter_In.
    split; [assumption|]. unfold Mongo.by_session_pending.
    rewrite (not_pending o Hst), andb_false_r. reflexivity.
Qed.

(** ... and none appears: the conversation path writes no status other
    than the pending of a new order. *)
Lemma rewrites_make_no_settled db db' :
  rewrites db db' ->
  forall o', In o' db' -> Order.status o' <> Order.pending ->
  exists o, In o db /\ same_order o o'.
Proof.
  unfold same_order.
  induction 1 as [db | db1 db2 db3 _ IH1 _ IH2 | x db Hx | id r t db
                  | sid db]; intros o' Hin Hst.
  - eauto.
  - destruct (IH2 o' Hin Hst) as (o2 & Hin2 & Hid2 & Hst2).
    destruct (IH1 o2 Hin2) as (o1 & Hin1 & Hid1 & Hst1); [congruence|].
    exists o1. repeat split; congruence.
  - unfold Mongo.insert in Hin. apply in_app_iff in Hin.
    destruct Hin as [Hin | [<- | []]]; [eauto | contradiction].
  - destruct (In_updateOne _ _ _ _ Hin) as [H | (x & Hx & ->)]; eauto.
  - unfold Mongo.deleteMany in Hin. apply filter_In in Hin.
    destruct Hin as [Hin _]. eauto.
Qed.

Lemma Forall2_marked_refl r db : Forall2 (marked_paid r) db db.
Proof. induction db; constructor; unfold marked_paid; auto. Qed.

Lemma updateOne_marked_paid r t db :
  Forall2 (marked_paid r) db
    (Mongo.updateOne (Order.has_reference r)
       (Order.set_status Order.paid t) db).
Proof.
  induction db as [|d rest IH]; simpl; [constructor|].
  destruct (Order.has_reference r d) eqn:E; constructor.
  - unfold marked_paid. simpl. auto.
  - apply Forall2_marked_refl.
  - unfold marked_paid. auto.
  - exact IH.
Qed.

Lemma on_callback_marks_paid env r db :
  Forall2 (marked_paid r) db (Payment.db (Payment.on_callback env r db)).
Proof.
  unfold Payment.on_callback, Payment.payment_callback.
  js_split; cbn [Payment.db];
    first [apply Forall2_marked_refl | apply updateOne_marked_paid].
Qed.

Lemma Forall2_In_l {A B} (R : A -> B -> Prop) l l' x :
  Forall2 R l l' -> In x l -> exists y, In y l' /\ R x y.
Proof.
  induction 1 as [|a b l l' Hab _ IH]; simpl; [tauto|].
  intros [<- | Hin]; [eauto|].
  destruct (IH Hin) as (y & Hy & Hxy). eauto.
Qed.

Lemma Forall2_In_r {A B} (R : A -> B -> Prop) l l' y :
  Forall2 R l l' -> In y l' -> exists x, In x l /\ R x y.
Proof.
  induction 1 as [|a b l l' Hab _ IH]; simpl; [tauto|].
  intros [<- | Hin]; [eauto|].
  destruct (IH Hin) as (x & Hx & Hxy). eauto.
Qed.

(** Through one run of either handler a paid order stays, and stays
    paid. *)
Lemma after_keeps_paid e db o :
  In o db -> Order.status o = Order.paid ->
  exists o', In o' (after e db)
             /\ Order._id o' = Order._id o /\ Order.status o' = Order.paid.
Proof.
  intros Hin Hpaid. destruct e as [env input s | env r]; simpl.
  - destruct (rewrites_keep_settled _ _
                (on_user_message_rewrites env input s db) o Hin)
      as (o' & Hin' & Hid & Hst); [congruence|].
    exists o'. split; [exact Hin' | split; congruence].
  - destruct (Forall2_In_l _ _ _ o (on_callback_marks_paid env r db) Hin)
      as (o' & Hin' & Hid & [Hst | [Hst _]]);
      exists o'; (split; [exact Hin' | split; congruence]).
Qed.

(** Through one run of either handler no order becomes cancelled. *)
Lemma after_writes_no_cancelled e db o' :
  In o' (after e db) -> Order.status o' = Order.cancelled ->
  exists o, In o db
            /\ Order._id o = Order._id o' /\ Order.status o = Order.cancelled.
Proof.
  intros Hin Hc. destruct e as [env input s | env r]; simpl in Hin.
  - destruct (rewrites_make_no_settled _ _
                (on_user_message_rewrites env input s db) o' Hin)
      as (o & Hin0 & Hid & Hst); [congruence|].
    exists o. split; [exact Hin0 | split; congruence].
  - destruct (Forall2_In_r _ _ _ o' (on_callback_marks_paid env r db) Hin)
      as (o & Hin0 & Hid & [Hst | [Hst _]]); [|congruence].
    exists o. split; [exact Hin0 | split; congruence].
Qed.

Lemma findOne_first {A} (q : A -> bool) before o after :
  Forall (fun x => q x = false) before -> q o = true ->
  Mongo.findOne q (before ++ o :: after)%list = Some o.
Proof.
  intros Hb Ho. unfold Mongo.findOne.
  induction Hb as [|x before Hx _ IH]; simpl.
  - now rewrite Ho.
  - now rewrite Hx.
Qed.

Lemma updateOne_first {A} (q : A -> bool) upd before o after :
  Forall (fun x => q x = false) before -> q o = true ->
  Mongo.updateOne q upd (before ++ o :: after)%list
  = (before ++ upd o :: after)%list.
Proof.
  intros Hb Ho. induction Hb as [|x before Hx _ IH]; simpl.
  - now rewrite Ho.
  - now rewrite Hx, IH.
Qed.

(** The callback writes nothing unless the verification reports a
    success. *)
Lemma callback_writes_on_success_only env r db :
  verify env r <> VerifyResolved "success" ->
  Payment.db (Payment.on_callback env r db) = db.
Proof.
  intros Hv. unfold Payment.on_callback, Payment.payment_callback. js_run.
  destruct (verify env r) as [|status] eqn:E; js_run; [reflexivity|].
  destruct (String.eqb status "success") eqn:Es; js_run; [|reflexivity].
  apply String.eqb_eq in Es. congruence.
Qed.

(** C5, as the code has it. The conversation path neither removes an
    order that is not pending nor changes or creates a status other than
    pending: its deletion is keyed on the status pending. The
    reconciliation path removes nothing and writes one status, paid, on
    an order selected by its payment reference alone: when the
    verification reports a success and the update answers, the first
    order that carries the reference is set to paid, with the time of
    the callback, whatever its current status, and every other order is
    left as it is; when the verification does not report a success,
    nothing is written. So, through any sequence of messages and
    callbacks, a paid order stays and stays paid, and an order that is
    cancelled at the end was cancelled at the start: no handler writes
    cancelled. *)
Theorem status_writes_of_the_handlers :
  (forall env input s db,
     let db' := snd (fst (Chatbot.on_user_message env input s db)) in
     (forall o, In o db -> Order.status o <> Order.pending ->
        exists o', In o' db' /\ same_order o o')
     /\ (forall o', In o' db' -> Order.status o' <> Order.pending ->
           exists o, In o db /\ same_order o o'))
  /\ (forall env r db,
        Forall2 (marked_paid r) db
          (Payment.db (Payment.on_callback env r db)))
  /\ (forall env r before o after,
        verify env r = VerifyResolved "success" ->
        orderUpdateRejects env = false ->
        Forall (fun x => Order.has_reference r x = false) before ->
        Order.has_reference r o = true ->
        Payment.db (Payment.on_callback env r (before ++ o :: after)%list)
        = (before ++ Order.set_status Order.paid (now env) o :: after)%list)
  /\ (forall env r db,
        verify env r <> VerifyResolved "success" ->
        Payment.db (Payment.on_callback env r db) = db)
  /\ (forall es db o,
        In o db -> Order.status o = Order.paid ->
        exists o', In o' (after_all es db)
                   /\ Order._id o' = Order._id o
                   /\ Order.status o' = Order.paid)
  /\ (forall es db o',
        In o' (after_all es db) -> Order.status o' = Order.cancelled ->
        exists o, In o db
                  /\ Order._id o = Order._id o'
                  /\ Order.status o = Order.cancelled).
Proof.
  split; [|split; [|split; [|split; [|split]]]].
  - intros env input s db db'. split.
    + apply rewrites_keep_settled. apply on_user_message_rewrites.
    + apply rewrites_make_no_settled. apply on_user_message_rewrites.
  - apply on_callback_marks_paid.
  - intros env r before o after Hv Hu Hbefore Ho.
    rewrite (callback_success_found env r _ o Hv Hu
               (findOne_first _ before o after Hbefore Ho)).
    cbn [Payment.db]. now apply updateOne_first.
  - intros env r db Hv. now apply callback_writes_on_success_only.
  - intros es. induction es as [|e es IH]; intros db o Hin Hpaid; simpl.
    + eauto.
    + destruct (after_keeps_paid e db o Hin Hpaid)
        as (o1 & Hin1 & Hid1 & Hst1).
      destruct (IH _ o1 Hin1 Hst1) as (o2 & Hin2 & Hid2 & Hst2).
      exists o2. split; [exact Hin2 | split; congruence].
  - intros es. induction es as [|e es IH]; intros db o' Hin Hc; simpl in Hin.
    + eauto.
    + destruct (IH _ o' Hin Hc) as (o1 & Hin1 & Hid1 & Hst1).
      destruct (after_writes_no_cancelled e db o1 Hin1 Hst1)
        as (o & Hin0 & Hid0 & Hst0).
      exists o. split; [exact Hin0 | split; congruence].
Qed.

Lemma status_writes_of_the_handlers_witness :
  let env := healthy 30 "65f0000000000000000000aa" in
  let db := [order1 Order.paid; order1 Order.pending] in
  (exists o', In o' (snd (fst (Chatbot.on_user_message env
                                 (JsString.of_string "0")
                                 (fresh_session sid0) db)))
              /\ same_order (order1 Order.paid) o')
  /\ (exists o', In o' (after_all
                          [Callback env ref1;
                           Message env (JsString.of_string "0")
                             (fresh_session sid0);
                           Callback env ref1] db)
                 /\ Order._id o' = Order._id (order1 Order.paid)
                 /\ Order.status o' = Order.paid)
  /\ Payment.db
       (Payment.on_callback env ref1
          [unpaid_elsewhere; order1 Order.cancelled; order1 Order.pending])
     = [unpaid_elsewhere;
        Order.set_status Order.paid 30 (order1 Order.cancelled);
        order1 Order.pending].
Proof.
  intros env db.
  destruct status_writes_of_the_handlers
    as (Hconv & _ & Hwrite & _ & Hpaid & _).
  split; [|split].
  - apply (Hconv env (JsString.of_string "0") (fresh_session sid0) db).
    + simpl. auto.
    + discriminate.
  - apply (Hpaid _ db (order1 Order.paid)).
    + simpl. auto.
    + reflexivity.
  - apply (Hwrite env ref1 [unpaid_elsewhere] (order1 Order.cancelled)
             [order1 Order.pending]).
    + reflexivity.
    + reflexivity.
    + repeat constructor.
    + reflexivity.
Defined.

(** C5, as stated, fails: the update to paid is applied to an order whose
    status is not pending. A cancelled order becomes paid; an order that
    is already paid is written again, as its [updatedAt] shows. *)
Lemma callback_overwrites_cancelled :
  Order.status (order1 Order.cancelled) <> Order.pending
  /\ Payment.db (Payment.on_callback (verifying "success" 20) ref1
                   [order1 Order.cancelled])
     = [Order.set_status Order.paid 20 (order1 Order.cancelled)]
  /\ List.map Order.updatedAt
       (Payment.db (Payment.on_callback (verifying "success" 20) ref1
                      [order1 Order.paid]))
     = [20].
Proof. split; [discriminate | split; reflexivity]. Qed.

(* ------------------------------------------------------------------ *)
(** ** Checkout: the compensating delete *)

(** The message of the [catch] block of checkout for an answer of the
    gateway that refuses. *)
Lemma checkout_error_message (message : option string) :
  match Js.AxiosError message with
  | Js.AxiosError (Some m) =>
      if String.eqb m "" then PaymentFailed else PaymentError m
  | _ => PaymentFailed
  end
  = refusal message.
Proof. reflexivity. Qed.

Lemma reference_keeps q r t db x :
  In x db ->
  exists x', In x' (Mongo.updateOne q (Order.set_paymentReference r t) db)
             /\ same_order x x'.
Proof.
  intros Hin.
  destruct (updateOne_In q (Order.set_paymentReference r t) db x Hin);
    eexists; (split; [eassumption | split; reflexivity]).
Qed.

(** C6: the compensating delete is never performed. Whatever the run of
    checkout, every stored order is still stored afterwards, with its
    status. On a checkout that fails, the [catch] block sends its message
    and the options and then throws a ReferenceError on [activeOrder],
    which is out of scope there, before [Order.deleteOne] is called; the
    [catch] of the handler answers with the generic error and the options
    once more. When the creation of the order failed - its validators or
    the insert rejected it - the orders and the cart are left as they
    were. When the order was created and the gateway refuses, the order
    just created is not deleted: it stays stored and pending, the cart
    being already emptied. *)
Theorem failed_checkout_never_reaches_the_delete env s db :
  let o := Chatbot.new_Order env (sessionId s)
             (Mongo.find_id_in (currentOrder s) (menu env)) in
  let t := {| Chatbot.session := s; Chatbot.orders := db;
              Chatbot.out := []; Chatbot.activeOrder := None |} in
  (forall x, In x db ->
     exists x',
       In x' (snd (fst (Chatbot.on_user_message env
                          (JsString.of_string "99") s db)))
       /\ same_order x x')
  /\ (currentOrder s <> [] ->
      menuFindRejects env = false ->
      List.length (Mongo.find_id_in (currentOrder s) (menu env))
      = List.length (currentOrder s) ->
      (Order.validate o = false \/ orderInsertRejects env = true ->
       fst (Chatbot.checkout env t) = Js.Throw Js.ReferenceError
       /\ Chatbot.on_user_message env (JsString.of_string "99") s db
          = (s, db,
             [bot_message PaymentFailed; bot_message Options;
              bot_message GenericError; bot_message Options]))
      /\ (forall message,
            Order.validate o = true ->
            orderInsertRejects env = false ->
            PAYSTACK_SECRET_KEY env = true ->
            initialize env (Chatbot.paymentData_of o)
            = InitRejected message ->
            fst (Chatbot.checkout env t) = Js.Throw Js.ReferenceError
            /\ Chatbot.on_user_message env (JsString.of_string "99") s db
               = (cleared s, Mongo.insert o db,
                  [paystack_initialize (Chatbot.paymentData_of o);
                   bot_message (refusal message); bot_message Options;
                   bot_message GenericError; bot_message Options]))).
Proof.
  intros o t. subst o t.
  unfold Chatbot.on_user_message. rewrite dispatch_99.
  destruct s as [sid cart aw]. cbn [currentOrder sessionId] in *.
  unfold cleared. cbn [currentOrder sessionId awaitingItemSelection].
  split.
  - intros x Hx. unfold Chatbot.checkout. js_split.
    all: cbn [Chatbot.orders].
    all: first
      [ exists x; split; [exact Hx | split; reflexivity]
      | exists x; split;
        [unfold Mongo.insert; apply in_or_app; left; exact Hx
        | split; reflexivity]
      | apply reference_keeps; exact Hx
      | apply reference_keeps; unfold Mongo.insert; apply in_or_app;
        left; exact Hx ].
  - intros Hne Hfind Hlen. apply Nat.eqb_eq in Hlen.
    destruct cart as [|c cart]; [congruence|].
    unfold Chatbot.checkout. js_run.
    change (0 <? List.length (c :: cart))%nat with true. cbv iota.
    rewrite Hfind. js_run. rewrite Hlen. cbn [negb]. js_run.
    split.
    + intros [Hval | Hins].
      * rewrite Hval. js_run. split; reflexivity.
      * rewrite Hins. destruct (Order.validate _); js_run; split; reflexivity.
    + intros message Hval Hins Hkey Hinit.
      rewrite Hval. js_run. rewrite Hins. js_run.
      rewrite (validate_total _ Hval), Hkey. cbn [negb]. js_run.
      rewrite Hinit. js_run. rewrite checkout_error_message.
      split; reflexivity.
Qed.

Lemma failed_checkout_never_reaches_the_delete_witness :
  let env := refusing 40 in
  let s := {| sessionId := sid0;
              currentOrder := ["65f000000000000000000002"];
              awaitingItemSelection := false |} in
  let o := Chatbot.new_Order env sid0
             (Mongo.find_id_in ["65f000000000000000000002"] sample_menu) in
  Order.status o = Order.pending
  /\ Chatbot.on_user_message env (JsString.of_string "99") s
       [order1 Order.pending]
     = (fresh_session sid0, [order1 Order.pending; o],
        [paystack_initialize (Chatbot.paymentData_of o);
         bot_message (PaymentError "Duplicate Transaction Reference");
         bot_message Options;
         bot_message GenericError; bot_message Options]).
Proof.
  intros env s o. split; [reflexivity|].
  destruct (failed_checkout_never_reaches_the_delete env s
              [order1 Order.pending]) as [_ Hfailed].
  destruct Hfailed as [_ Hrefused];
    [discriminate | reflexivity | reflexivity |].
  destruct (Hrefused (Some "Duplicate Transaction Reference"))
    as [_ Hrun]; [reflexivity | reflexivity | reflexivity | reflexivity |].
  exact Hrun.
Defined.

(* ------------------------------------------------------------------ *)
(** ** Pending orders of a session *)

Lemma cancel_leaves_no_pending sid db :
  pending_of sid (Mongo.deleteMany (Mongo.by_session_pending sid) db) = [].
Proof.
  unfold pending_of, Mongo.deleteMany.
  induction db as [|d rest IH]; simpl; [reflexivity|].
  destruct (Mongo.by_session_pending sid d) eqn:E; simpl; [exact IH|].
  now rewrite E.
Qed.

(** The unused [showMenu] deletes the pending orders of the session
    before it lists the menu. *)
Lemma showMenu_deletes_pending env t :
  orderDeleteRejects env = false ->
  pending_of (sessionId (Chatbot.session t))
    (Chatbot.orders (snd (Chatbot.showMenu env t)))
  = [].
Proof.
  intros Hdel. destruct t as [[sid cart aw] db out a].
  unfold Chatbot.showMenu. js_run. rewrite Hdel.
  js_split; cbn [Chatbot.orders]; apply cancel_leaves_no_pending.
Qed.

(** Browsing leaves the orders as they are: [case "1"] empties the cart
    of the session and deletes nothing. *)
Lemma browse_keeps_orders env s db :
  snd (fst (Chatbot.on_user_message env (JsString.of_string "1") s db)) = db.
Proof.
  unfold Chatbot.on_user_message. rewrite dispatch_1.
  destruct s as [sid cart aw]. unfold Chatbot.browse.
  js_split; reflexivity.
Qed.

(** Cancel deletes the pending orders of the session and empties the
    cart. *)
Lemma cancel_deletes_pending env s db :
  orderDeleteRejects env = false ->
  Chatbot.on_user_message env (JsString.of_string "0") s db
  = (cleared s,
     Mongo.deleteMany (Mongo.by_session_pending (sessionId s)) db,
     [bot_message Cancelled; bot_message Options]).
Proof.
  intros Hdel.
  unfold Chatbot.on_user_message. rewrite dispatch_0.
  destruct s as [sid cart aw]. unfold Chatbot.cancel, cleared.
  js_run. rewrite Hdel. reflexivity.
Qed.

(** C1. Browse, select, checkout, then browse, select and checkout again
    on the same connection, the gateway answering both times: browsing
    has not deleted the pending order, the second checkout inserts its
    order without looking for it, and the session ends with two pending
    orders. *)
Theorem second_checkout_leaves_two_pending_orders :
  let first := healthy 10 "65f0000000000000000000a1" in
  let second := healthy 20 "65f0000000000000000000a2" in
  let '(_, db, _) :=
    conversation
      [(first, "1"); (first, "2"); (first, "99");
       (second, "1"); (second, "3"); (second, "99")]
      (fresh_session sid0) [] in
  List.map Order._id (pending_of sid0 db)
  = ["65f0000000000000000000a1"; "65f0000000000000000000a2"].
Proof. vm_compute. reflexivity. Qed.

(* ------------------------------------------------------------------ *)
(** * Further properties of the handlers *)

(** ** Cancel, browse, history and review *)

Lemma dispatch_98 env :
  Chatbot.user_message env (JsString.of_string "98")
  = Js.try_catch (Chatbot.history env)
      (fun _ => Js.bind (Chatbot.emit (bot_message GenericError))
                        (fun _ => Chatbot.sendOptions)).
Proof. reflexivity. Qed.

Lemma dispatch_97 env :
  Chatbot.user_message env (JsString.of_string "97")
  = Js.try_catch (Chatbot.review env)
      (fun _ => Js.bind (Chatbot.emit (bot_message GenericError))
                        (fun _ => Chatbot.sendOptions)).
Proof. reflexivity. Qed.

Lemma deleteMany_In {A} (q : A -> bool) coll x :
  In x (Mongo.deleteMany q coll) <-> In x coll /\ q x = false.
Proof.
  unfold Mongo.deleteMany. rewrite filter_In.
  now rewrite negb_true_iff.
Qed.

Lemma deleteMany_twice {A} (q : A -> bool) coll :
  Mongo.deleteMany q (Mongo.deleteMany q coll) = Mongo.deleteMany q coll.
Proof.
  unfold Mongo.deleteMany.
  induction coll as [|d rest IH]; simpl; [reflexivity|].
  destruct (q d) eqn:E; simpl; [exact IH|].
  rewrite E. simpl. now rewrite IH.
Qed.

(** Cancel, when the delete answers: the cart is emptied, the session has
    no pending order left, the orders that remain are exactly those that
    were not pending orders of this session, and a second cancel changes
    nothing more. *)
Theorem cancel_removes_the_pending_orders_of_the_session env s db :
  orderDeleteRejects env = false ->
  let r := Chatbot.on_user_message env (JsString.of_string "0") s db in
  fst (fst r) = cleared s
  /\ snd r = [bot_message Cancelled; bot_message Options]
  /\ pending_of (sessionId s) (snd (fst r)) = []
  /\ (forall o, In o (snd (fst r))
                <-> In o db
                    /\ Mongo.by_session_pending (sessionId s) o = false)
  /\ snd (fst (Chatbot.on_user_message env (JsString.of_string "0")
                 (fst (fst r)) (snd (fst r))))
     = snd (fst r).
Proof.
  intros Hdel r. subst r.
  rewrite (cancel_deletes_pending env s db Hdel). cbn [fst snd].
  split; [reflexivity|]. split; [reflexivity|].
  split; [apply cancel_leaves_no_pending|].
  split; [intros o; apply deleteMany_In|].
  rewrite (cancel_deletes_pending env (cleared s) _ Hdel). cbn [fst snd].
  apply deleteMany_twice.
Qed.

Lemma cancel_removes_the_pending_orders_of_the_session_witness :
  let env := healthy 30 "65f0000000000000000000aa" in
  let db := [order1 Order.paid; order1 Order.pending] in
  let r := Chatbot.on_user_message env (JsString.of_string "0")
             (fresh_session sid0) db in
  snd (fst r) = [order1 Order.paid] /\ pending_of sid0 (snd (fst r)) = [].
Proof.
  intros env db r.
  destruct (cancel_removes_the_pending_orders_of_the_session env
              (fresh_session sid0) db) as (_ & _ & Hnone & _);
    [reflexivity|].
  split; [reflexivity | exact Hnone].
Defined.

(** Cancel, when the delete rejects: the generic error and the options
    are sent; the orders stay and the cart is not emptied. *)
Theorem cancel_that_fails_keeps_the_cart env s db :
  orderDeleteRejects env = true ->
  Chatbot.on_user_message env (JsString.of_string "0") s db
  = (s, db, [bot_message GenericError; bot_message Options]).
Proof.
  intros Hdel.
  unfold Chatbot.on_user_message. rewrite dispatch_0.
  destruct s as [sid cart aw]. unfold Chatbot.cancel.
  js_run. rewrite Hdel. reflexivity.
Qed.

Lemma cancel_that_fails_keeps_the_cart_witness :
  let env :=
    {| now := 30; newObjectId := "65f0000000000000000000aa";
       menu := sample_menu; PAYSTACK_SECRET_KEY := true;
       initialize := fun _ => InitRejected None;
       verify := fun _ => VerifyRejected;
       menuFindRejects := false; orderFindRejects := false;
       orderInsertRejects := false; orderUpdateRejects := false;
       orderDeleteRejects := true |} in
  let s := {| sessionId := sid0;
              currentOrder := ["65f000000000000000000002"];
              awaitingItemSelection := false |} in
  Chatbot.on_user_message env (JsString.of_string "0") s
    [order1 Order.pending]
  = (s, [order1 Order.pending],
     [bot_message GenericError; bot_message Options]).
Proof.
  intros env s.
  apply (cancel_that_fails_keeps_the_cart env s [order1 Order.pending]).
  reflexivity.
Defined.

(** Browse: the cart is emptied and the orders are left alone in every
    case. When the menu lookup answers, the menu is sent without the
    options and the selection flag is raised; when it rejects, the error
    and the options are sent and the flag stays as it was. *)
Theorem browse_empties_the_cart_and_awaits_a_selection env s db :
  Chatbot.on_user_message env (JsString.of_string "1") s db
  = if menuFindRejects env
    then (cleared s, db, [bot_message MenuError; bot_message Options])
    else ({| sessionId := sessionId s; currentOrder := [];
             awaitingItemSelection := true |},
          db, [bot_message (Menu (menu env))]).
Proof.
  unfold Chatbot.on_user_message. rewrite dispatch_1.
  destruct s as [sid cart aw]. unfold Chatbot.browse, cleared.
  js_run. destruct (menuFindRejects env); reflexivity.
Qed.

(** History and review only read: whatever the environment, also when a
    lookup rejects, the session and the orders are left as they were. *)
Theorem history_and_review_only_read env s db :
  fst (Chatbot.on_user_message env (JsString.of_string "98") s db) = (s, db)
  /\ fst (Chatbot.on_user_message env (JsString.of_string "97") s db)
     = (s, db).
Proof.
  split.
  - unfold Chatbot.on_user_message. rewrite dispatch_98.
    destruct s as [sid cart aw]. unfold Chatbot.history.
    js_split; reflexivity.
  - unfold Chatbot.on_user_message. rewrite dispatch_97.
    destruct s as [sid cart aw]. unfold Chatbot.review.
    js_split; reflexivity.
Qed.

Lemma insert_desc_Permutation o l :
  Permutation (Mongo.insert_desc o l) (o :: l).
Proof.
  induction l as [|x r IH]; simpl; [apply Permutation_refl|].
  destruct (Order.createdAt x <? Order.createdAt o);
    [apply Permutation_refl|].
  eapply Permutation_trans; [apply perm_skip, IH | apply perm_swap].
Qed.

Lemma insert_desc_HdRel x o l :
  Order.createdAt o <= Order.createdAt x ->
  HdRel (fun a b => Order.createdAt b <= Order.createdAt a) x l ->
  HdRel (fun a b => Order.createdAt b <= Order.createdAt a) x
        (Mongo.insert_desc o l).
Proof.
  intros Hox Hhd. destruct l as [|y r]; simpl.
  - now constructor.
  - destruct (Order.createdAt y <? Order.createdAt o); constructor.
    + exact Hox.
    + now inversion Hhd.
Qed.

Lemma insert_desc_newest_first o l :
  newest_first l -> newest_first (Mongo.insert_desc o l).
Proof.
  unfold newest_first.
  induction l as [|x r IH]; intros Hs; simpl.
  - repeat constructor.
  - destruct (Order.createdAt x <? Order.createdAt o) eqn:E.
    + apply Z.ltb_lt in E. constructor; [exact Hs|].
      constructor. lia.
    + apply Z.ltb_ge in E. inversion Hs as [|? ? Hr Hhd]; subst.
      constructor; [now apply IH|].
      now apply insert_desc_HdRel.
Qed.

Lemma sort_createdAt_desc_Permutation l :
  Permutation (Mongo.sort_createdAt_desc l) l.
Proof.
  unfold Mongo.sort_createdAt_desc.
  induction l as [|x r IH]; simpl; [apply Permutation_refl|].
  eapply Permutation_trans; [apply insert_desc_Permutation|].
  now apply perm_skip.
Qed.

Lemma sort_createdAt_desc_newest_first l :
  newest_first (Mongo.sort_createdAt_desc l).
Proof.
  unfold Mongo.sort_createdAt_desc.
  induction l as [|x r IH]; simpl.
  - constructor.
  - now apply insert_desc_newest_first.
Qed.

(** History, when the lookup answers: what is listed is, up to order, the
    orders of the session that are not pending - nothing of another
    session, nothing pending - newest first; with none to list, the
    no-history message is sent instead. The options follow. *)
Theorem history_lists_the_settled_orders_newest_first env s db :
  orderFindRejects env = false ->
  exists l,
    Permutation l
      (List.filter (Mongo.by_session_not_pending (sessionId s)) db)
    /\ newest_first l
    /\ snd (Chatbot.on_user_message env (JsString.of_string "98") s db)
       = [bot_message match l with [] => NoHistory | _ => History l end;
          bot_message Options].
Proof.
  intros Hfind.
  exists (Mongo.sort_createdAt_desc
            (List.filter (Mongo.by_session_not_pending (sessionId s)) db)).
  split; [apply sort_createdAt_desc_Permutation|].
  split; [apply sort_createdAt_desc_newest_first|].
  unfold Chatbot.on_user_message. rewrite dispatch_98.
  destruct s as [sid cart aw]. unfold Chatbot.history.
  js_run. rewrite Hfind. js_run.
  destruct (Mongo.sort_createdAt_desc _); reflexivity.
Qed.

Lemma history_lists_the_settled_orders_newest_first_witness :
  let env := healthy 30 "65f0000000000000000000aa" in
  let old := Order.set_status Order.paid 5 (order1 Order.pending) in
  exists l,
    Permutation l [old; order1 Order.cancelled]
    /\ newest_first l
    /\ snd (Chatbot.on_user_message env (JsString.of_string "98")
              (fresh_session sid0)
              [old; order1 Order.pending; order1 Order.cancelled])
       = [bot_message match l with [] => NoHistory | _ => History l end;
          bot_message Options].
Proof.
  intros env old.
  apply (history_lists_the_settled_orders_newest_first env
           (fresh_session sid0)
           [old; order1 Order.pending; order1 Order.cancelled]).
  reflexivity.
Defined.

(* ------------------------------------------------------------------ *)
(** ** Item selection *)

Lemma not_reserved cleanedInput :
  reserved cleanedInput = false ->
  Chatbot.case_ "1" cleanedInput = false
  /\ Chatbot.case_ "99" cleanedInput = false
  /\ Chatbot.case_ "98" cleanedInput = false
  /\ Chatbot.case_ "97" cleanedInput = false
  /\ Chatbot.case_ "0" cleanedInput = false.
Proof.
  unfold reserved. simpl. intros H.
  repeat (apply orb_false_elim in H; destruct H as [? H]). auto.
Qed.

(** An accepted input that is not a reserved command goes to [default]. *)
Lemma dispatch_default env input :
  Regex.test input_pattern (JsString.trim input) = true ->
  reserved (JsString.trim input) = false ->
  Chatbot.user_message env input
  = Js.try_catch (Chatbot.selection env (JsString.trim input))
      (fun _ => Js.bind (Chatbot.emit (bot_message GenericError))
                        (fun _ => Chatbot.sendOptions)).
Proof.
  intros Hok Hres. apply not_reserved in Hres.
  destruct Hres as (H1 & H99 & H98 & H97 & H0).
  unfold Chatbot.user_message. cbv zeta.
  rewrite Hok, H1, H99, H98, H97, H0. reflexivity.
Qed.

(** Item numbers typed while no selection is awaited are ignored: nothing
    is sent, nothing changes. *)
Theorem selection_that_is_not_awaited_is_ignored env input s db :
  Regex.test input_pattern (JsString.trim input) = true ->
  reserved (JsString.trim input) = false ->
  awaitingItemSelection s = false ->
  Chatbot.on_user_message env input s db = (s, db, []).
Proof.
  intros Hok Hres Haw.
  unfold Chatbot.on_user_message. rewrite (dispatch_default env input Hok Hres).
  destruct s as [sid cart aw]. cbn [awaitingItemSelection] in Haw. subst aw.
  unfold Chatbot.selection. js_run. reflexivity.
Qed.

Lemma selection_that_is_not_awaited_is_ignored_witness :
  let env := healthy 30 "65f0000000000000000000aa" in
  Chatbot.on_user_message env (JsString.of_string "2,3")
    (fresh_session sid0) [order1 Order.pending]
  = (fresh_session sid0, [order1 Order.pending], []).
Proof.
  intros env.
  apply (selection_that_is_not_awaited_is_ignored env
           (JsString.of_string "2,3") (fresh_session sid0)
           [order1 Order.pending]); reflexivity.
Defined.

(** An awaited selection. When the menu lookup answers and at least one
    number is on the menu, the cart is replaced by the items picked, the
    flag is lowered, and the count and the total are announced; when no
    number is on the menu, or when the lookup rejects, an error is sent
    and the cart and the flag stay as they were. The options follow in
    every case and the orders are not touched. *)
Theorem awaited_selection_replaces_the_cart env input s db :
  Regex.test input_pattern (JsString.trim input) = true ->
  reserved (JsString.trim input) = false ->
  awaitingItemSelection s = true ->
  let valid := Chatbot.validItems (menu env)
                 (Chatbot.selectedItems (JsString.trim input)) in
  Chatbot.on_user_message env input s db
  = if menuFindRejects env
    then (s, db, [bot_message SelectionError; bot_message Options])
    else if (0 <? List.length valid)%nat
    then ({| sessionId := sessionId s; currentOrder := valid;
             awaitingItemSelection := false |},
          db,
          [bot_message (Added (List.length valid)
                          (Chatbot.selection_total (menu env) valid));
           bot_message Options])
    else (s, db, [bot_message InvalidSelection; bot_message Options]).
Proof.
  intros Hok Hres Haw valid. subst valid.
  unfold Chatbot.on_user_message. rewrite (dispatch_default env input Hok Hres).
  destruct s as [sid cart aw]. cbn [awaitingItemSelection] in Haw. subst aw.
  unfold Chatbot.selection. js_run.
  destruct (menuFindRejects env); [reflexivity|]. js_run.
  destruct (0 <? List.length _)%nat; reflexivity.
Qed.

Lemma awaited_selection_replaces_the_cart_witness :
  let env := healthy 30 "65f0000000000000000000aa" in
  let s := {| sessionId := sid0;
              currentOrder := ["65f000000000000000000001"];
              awaitingItemSelection := true |} in
  Chatbot.on_user_message env (JsString.of_string " 4,9,2 ") s []
  = ({| sessionId := sid0;
        currentOrder := ["65f000000000000000000004";
                         "65f000000000000000000002"];
        awaitingItemSelection := false |},
     [], [bot_message (Added 2 2800); bot_message Options]).
Proof.
  intros env s.
  apply (awaited_selection_replaces_the_cart env
           (JsString.of_string " 4,9,2 ") s []); reflexivity.
Defined.

Lemma on_menu_index menuItems z :
  on_menu menuItems (Number.Finite z)
  = ((0 <=? z - 1) && (z - 1 <? Z.of_nat (List.length menuItems))).
Proof.
  unfold on_menu. apply eq_true_iff_eq.
  rewrite !andb_true_iff, !Z.leb_le, Z.ltb_lt. lia.
Qed.

Lemma validItems_picked menuItems selected :
  Chatbot.validItems menuItems selected = picked menuItems selected.
Proof.
  unfold Chatbot.validItems, picked.
  induction selected as [|num rest IH]; [reflexivity|].
  cbn [List.map List.filter flat_map]. rewrite <- IH.
  destruct num as [| |z|[|]];
    cbn [Number.minus_one Number.ge_zero Number.lt_length item_at negb
         andb];
    try reflexivity.
  rewrite on_menu_index.
  destruct (0 <=? z - 1) eqn:E0; [|reflexivity].
  destruct (z - 1 <? Z.of_nat (List.length menuItems)); [|reflexivity].
  cbn [andb flat_map Number.element]. now rewrite E0.
Qed.

Lemma item_at_on_menu menuItems num :
  on_menu menuItems num = true ->
  exists item, item_at menuItems num = Some item /\ In item menuItems.
Proof.
  intros Hon. destruct num as [| |z|b]; try discriminate.
  unfold item_at. rewrite Hon.
  unfold on_menu in Hon. apply andb_prop in Hon. destruct Hon as [H1 H2].
  apply Z.leb_le in H1, H2.
  destruct (nth_error menuItems (Z.to_nat (z - 1))) as [item|] eqn:E.
  - exists item. split; [reflexivity|]. eapply nth_error_In; eauto.
  - apply nth_error_None in E. lia.
Qed.

Lemma item_at_In menuItems num item :
  item_at menuItems num = Some item -> In item menuItems.
Proof.
  destruct num as [| |z|b]; try discriminate.
  unfold item_at. destruct (on_menu menuItems _); [|discriminate].
  apply nth_error_In.
Qed.

Lemma picked_incl menuItems selected :
  incl (picked menuItems selected) (List.map MenuItem._id menuItems).
Proof.
  unfold picked. intros id Hin. apply in_flat_map in Hin.
  destruct Hin as (num & _ & Hid).
  destruct (item_at menuItems num) as [item|] eqn:E; [|contradiction].
  destruct Hid as [<- | []]. apply in_map. eapply item_at_In; eauto.
Qed.

(** The items of a selection, number by number: a number from 1 to the
    length of the menu picks the item at that position, any other number
    (0, or past the end) picks nothing; the order and the repetitions of
    the numbers are kept. So the cart holds ids of the menu only, no more
    of them than numbers were typed, and no number of the menu is lost. *)
Theorem selection_picks_the_items_at_the_numbers menuItems selected :
  Chatbot.validItems menuItems selected = picked menuItems selected
  /\ incl (Chatbot.validItems menuItems selected)
          (List.map MenuItem._id menuItems)
  /\ (List.length (Chatbot.validItems menuItems selected)
      <= List.length selected)%nat
  /\ Forall (fun num =>
               on_menu menuItems num = true ->
               exists item,
                 item_at menuItems num = Some item
                 /\ In (MenuItem._id item)
                       (Chatbot.validItems menuItems selected))
            selected.
Proof.
  rewrite validItems_picked. split; [reflexivity|].
  split; [apply picked_incl|]. unfold picked. split.
  - induction selected as [|num rest IH]; simpl; [lia|].
    rewrite length_app.
    destruct (item_at menuItems num); simpl; lia.
  - apply Forall_forall. intros num Hin Hon.
    destruct (item_at_on_menu menuItems num Hon) as (item & E & _).
    exists item. split; [exact E|].
    apply in_flat_map. exists num. split; [exact Hin|].
    rewrite E. now left.
Qed.

(** *** The totals shown and charged *)

Lemma fold_left_add {A} (f : A -> Z) l acc :
  fold_left (fun sum x => sum + f x) l acc
  = acc + fold_right (fun x a => f x + a) 0 l.
Proof.
  revert acc. induction l as [|x l IH]; intros acc; simpl; [lia|].
  rewrite IH. lia.
Qed.






(* ------------------------------------------------------------------ *)
(** ** Checkout: the edges *)

Lemma findOne_none_of_filter {A} (q : A -> bool) coll :
  List.filter q coll = [] -> Mongo.findOne q coll = None.
Proof.
  unfold Mongo.findOne.
  induction coll as [|d rest IH]; simpl; [reflexivity|].
  destruct (q d); [discriminate | exact IH].
Qed.

(** Checkout with an empty cart and no pending order of the session:
    there is nothing to place; nothing changes and the gateway is not
    called. *)
Theorem checkout_with_nothing_to_place env s db :
  currentOrder s = [] ->
  orderFindRejects env = false ->
  pending_of (sessionId s) db = [] ->
  Chatbot.on_user_message env (JsString.of_string "99") s db
  = (s, db, [bot_message NoOrderToPlace; bot_message Options]).
Proof.
  intros Hcart Hfind Hnone. apply findOne_none_of_filter in Hnone.
  unfold Chatbot.on_user_message. rewrite dispatch_99.
  destruct s as [sid cart aw]. cbn [currentOrder sessionId] in *. subst cart.
  unfold Chatbot.checkout. js_run.
  change (0 <? List.length (@nil ObjectId))%nat with false. cbv iota.
  rewrite Hfind. js_run. rewrite Hnone. reflexivity.
Qed.

Lemma checkout_with_nothing_to_place_witness :
  let env := healthy 30 "65f0000000000000000000aa" in
  Chatbot.on_user_message env (JsString.of_string "99")
    (fresh_session sid0) [order1 Order.paid]
  = (fresh_session sid0, [order1 Order.paid],
     [bot_message NoOrderToPlace; bot_message Options]).
Proof.
  intros env.
  apply (checkout_with_nothing_to_place env (fresh_session sid0)
           [order1 Order.paid]); reflexivity.
Defined.

Lemma sum_prices_bounds (lo hi : Z) items :
  (forall m, In m items -> lo <= MenuItem.price m <= hi) ->
  lo * Z.of_nat (List.length items)
  <= Chatbot.sum_prices items
  <= hi * Z.of_nat (List.length items).
Proof.
  unfold Chatbot.sum_prices. rewrite (fold_left_add MenuItem.price items 0).
  induction items as [|m l IH]; intros Hall; [simpl; lia|].
  assert (Hm := Hall m (or_introl eq_refl)).
  assert (Hl := IH (fun x Hx => Hall x (or_intror Hx))).
  cbn [fold_right List.length]. rewrite Nat2Z.inj_succ. lia.
Qed.

(** On a menu whose prices respect the bounds of [menuItemSchema], from
    100 to 10000, an order built from a cart that is found in full has a
    total of at least 100 and at most 10000 per item: the minimum of
    [orderSchema] holds, and the only validator of [save] that can still
    reject the order is the one on the session id. *)
Theorem order_from_a_valid_menu_meets_the_minimum env sid cart :
  let o := Chatbot.new_Order env sid (Mongo.find_id_in cart (menu env)) in
  (forall m, In m (menu env) -> 100 <= MenuItem.price m <= 10000) ->
  cart <> [] ->
  List.length (Mongo.find_id_in cart (menu env)) = List.length cart ->
  100 <= Order.total o <= 10000 * Z.of_nat (List.length cart)
  /\ Order.validate o
     = Regex.test session_id_pattern (JsString.of_string sid).
Proof.
  intros o Hprices Hne Hlen.
  assert (Hb : 100 * Z.of_nat (List.length cart)
               <= Order.total o
               <= 10000 * Z.of_nat (List.length cart)).
  { subst o. cbn [Order.total Chatbot.new_Order]. rewrite <- Hlen.
    apply sum_prices_bounds. intros m Hm. apply Hprices.
    unfold Mongo.find_id_in in Hm. now apply filter_In in Hm. }
  assert (Hpos : 1 <= Z.of_nat (List.length cart)).
  { destruct cart; [congruence | cbn [List.length]; lia]. }
  split; [lia|].
  unfold Order.validate.
  replace (100 <=? Order.total o) with true
    by (symmetry; apply Z.leb_le; lia).
  subst o. cbn [Order.sessionId Chatbot.new_Order]. apply andb_true_r.
Qed.

Lemma order_from_a_valid_menu_meets_the_minimum_witness :
  let env := healthy 30 "65f0000000000000000000aa" in
  let cart := ["65f000000000000000000004"; "65f000000000000000000002"] in
  let o := Chatbot.new_Order env sid0 (Mongo.find_id_in cart sample_menu) in
  100 <= Order.total o <= 20000 /\ Order.validate o = true.
Proof.
  intros env cart o.
  destruct (order_from_a_valid_menu_meets_the_minimum env sid0 cart)
    as [Hb Hv].
  - intros m Hm. simpl in Hm.
    destruct Hm as [<- | [<- | [<- | [<- | []]]]]; simpl; lia.
  - discriminate.
  - reflexivity.
  - split; [exact Hb|].
    transitivity (Regex.test session_id_pattern (JsString.of_string sid0));
      [exact Hv | vm_compute; reflexivity].
Defined.

(* ------------------------------------------------------------------ *)
(** ** Every message, whatever it is *)

(** Runs the handler through every branch of every case. *)
Ltac run_user_message :=
  unfold Chatbot.on_user_message, Chatbot.user_message,
         Chatbot.browse, Chatbot.checkout, Chatbot.history,
         Chatbot.review, Chatbot.cancel, Chatbot.selection;
  cbv zeta; js_split.

(** Whatever the message and the environment, the gateway is asked at
    most once, only by a checkout, and for an amount of at least 10000
    (100 naira in kobo), with the fixed e-mail and callback address and
    a reference made of ["order_"] and an id. *)
Theorem gateway_is_asked_once_for_at_least_the_minimum env input s db :
  let requests :=
    gateway_requests (snd (Chatbot.on_user_message env input s db)) in
  (List.length requests <= 1)%nat
  /\ Forall well_formed_request requests
  /\ (requests = [] \/ Chatbot.case_ "99" (JsString.trim input) = true).
Proof.
  intros requests. subst requests. destruct s as [sid cart aw].
  run_user_message.
  all: cbn [gateway_requests flat_map app List.length snd].
  all: split; [lia | split; [|auto]].
  all: try solve [constructor].
  all: constructor; [|constructor].
  all: unfold well_formed_request;
    cbn [email callback_url amount reference Chatbot.paymentData_of].
  all: split; [reflexivity | split; [reflexivity | split; [|eauto]]].
  all: match goal with
       | H : (_ <? 100) = false |- _ => apply Z.ltb_ge in H; lia
       end.
Qed.

Lemma updateOne_hits db (a : Order.t) r t :
  In a db ->
  exists o,
    In o (Mongo.updateOne (fun d => String.eqb (Order._id d) (Order._id a))
            (Order.set_paymentReference r t) db)
    /\ Order._id o = Order._id a
    /\ Order.paymentReference o = Some r.
Proof.
  induction db as [|d rest IH]; simpl; [tauto|].
  intros Hin.
  destruct (String.eqb (Order._id d) (Order._id a)) eqn:E.
  - apply String.eqb_eq in E.
    exists (Order.set_paymentReference r t d). simpl. auto.
  - destruct Hin as [-> | Hin]; [now rewrite String.eqb_refl in E|].
    destruct (IH Hin) as (o & Ho & Hid & Hr). exists o. simpl. auto.
Qed.

Lemma findOne_In {A} (q : A -> bool) coll d :
  Mongo.findOne q coll = Some d -> In d coll /\ q d = true.
Proof. unfold Mongo.findOne. apply find_some. Qed.

Lemma has_reference_eq r o :
  Order.has_reference r o = true -> Order.paymentReference o = Some r.
Proof.
  unfold Order.has_reference.
  destruct (Order.paymentReference o) as [r'|]; [|discriminate].
  intros E. apply String.eqb_eq in E. now subst.
Qed.

(** Whatever the message, a redirect to the payment page is only sent
    when the gateway was asked in the same run and an order is stored
    with the reference of that request, which is ["order_"] followed by
    the order's own id. *)
Theorem redirect_follows_the_stored_reference env input s db url :
  let r := Chatbot.on_user_message env input s db in
  In (redirect url) (snd r) ->
  exists o d,
    In o (snd (fst r))
    /\ In d (gateway_requests (snd r))
    /\ reference d = "order_" ++ Order._id o
    /\ Order.paymentReference o = Some (reference d).
Proof.
  intros r. subst r. destruct s as [sid cart aw].
  run_user_message.
  all: cbn [gateway_requests flat_map app snd fst In].
  all: intros H.
  all: try solve [exfalso; intuition discriminate].
  all: lazymatch goal with
       | |- exists o d,
              In o (Mongo.updateOne
                      (fun d0 => String.eqb (Order._id d0) (Order._id ?a))
                      (Order.set_paymentReference ?r ?t) ?coll) /\ _ =>
           destruct (updateOne_hits coll a r t) as (o & Ho & Hid & Hr);
           [ first
               [ match goal with
                 | Hf : Mongo.findOne _ _ = Some a |- _ =>
                     apply (findOne_In _ _ _ Hf)
                 end
               | unfold Mongo.insert; apply in_app_iff; right; now left ]
           | exists o, (Chatbot.paymentData_of a);
             split; [exact Ho|]; split; [now left|];
             split; [cbn [reference Chatbot.paymentData_of];
                     now rewrite Hid
                    | exact Hr] ]
       | |- exists o d,
              In o _ /\ (Chatbot.paymentData_of ?a = d \/ False) /\ _ =>
           exists a, (Chatbot.paymentData_of a);
           split; [ match goal with
                    | Hf : Mongo.findOne _ _ = Some a |- _ =>
                        apply (findOne_In _ _ _ Hf)
                    end |];
           split; [now left|];
           split; [reflexivity | apply has_reference_eq; assumption]
       end.
Qed.

Lemma redirect_follows_the_stored_reference_witness :
  let env := healthy 12 "65f0000000000000000000aa" in
  let s := {| sessionId := sid0;
              currentOrder := ["65f000000000000000000004"];
              awaitingItemSelection := false |} in
  let r := Chatbot.on_user_message env (JsString.of_string "99") s [] in
  exists o d,
    In o (snd (fst r))
    /\ In d (gateway_requests (snd r))
    /\ reference d = "order_" ++ Order._id o
    /\ Order.paymentReference o = Some (reference d).
Proof.
  intros env s r.
  apply (redirect_follows_the_stored_reference env
           (JsString.of_string "99") s []
           "https://checkout.paystack.com/order_65f0000000000000000000aa").
  vm_compute. auto.
Defined.

(** The minimum-amount refusal is only ever sent for a pending order that
    was already stored and that a checkout with an empty cart took up:
    an order built in the same run with a total under 100 is rejected by
    [save] before that check. *)
Theorem minimum_amount_is_only_refused_on_a_stored_order env input s db :
  In (bot_message MinimumAmount)
     (snd (Chatbot.on_user_message env input s db)) ->
  currentOrder s = []
  /\ exists a,
       Mongo.findOne (Mongo.by_session_pending (sessionId s)) db = Some a
       /\ Order.total a < 100.
Proof.
  destruct s as [sid cart aw]. cbn [currentOrder sessionId].
  run_user_message.
  all: cbn [app snd In].
  all: intros H.
  all: try solve [exfalso; intuition discriminate].
  all: try solve [exfalso;
                  match goal with
                  | Hv : Order.validate ?o = true,
                    Ht : (Order.total ?o <? 100) = true |- _ =>
                      rewrite (validate_total o Hv) in Ht; discriminate
                  end].
  all: split;
    [ match goal with
      | Hc : (0 <? List.length ?c)%nat = false |- _ =>
          destruct c; [reflexivity | cbn in Hc; discriminate Hc]
      end
    | eexists; split; [reflexivity|];
      match goal with
      | Ht : (_ <? 100) = true |- _ => now apply Z.ltb_lt in Ht
      end ].
Qed.

Lemma minimum_amount_is_only_refused_on_a_stored_order_witness :
  let env := healthy 30 "65f0000000000000000000aa" in
  let cheap :=
    {| Order._id := "65f0000000000000000000a7"; Order.sessionId := sid0;
       Order.items := []; Order.total := 50;
       Order.status := Order.pending; Order.paymentReference := None;
       Order.createdAt := 1; Order.updatedAt := 1 |} in
  exists a,
    Mongo.findOne (Mongo.by_session_pending sid0) [cheap] = Some a
    /\ Order.total a < 100.
Proof.
  intros env cheap.
  apply (minimum_amount_is_only_refused_on_a_stored_order env
           (JsString.of_string "99") (fresh_session sid0) [cheap]).
  vm_compute. auto.
Defined.

(** No exception escapes the handler, and every message gets an answer,
    with one exception: item numbers sent while no selection is awaited,
    which leave everything as it was and are answered by nothing. *)
Theorem every_message_is_answered_or_ignored env input s db :
  let r := Chatbot.on_user_message env input s db in
  (forall t, match fst (Chatbot.user_message env input t) with
             | Js.Throw _ => False
             | _ => True
             end)
  /\ (snd r <> []
      \/ (r = (s, db, [])
          /\ awaitingItemSelection s = false
          /\ reserved (JsString.trim input) = false
          /\ Regex.test input_pattern (JsString.trim input) = true)).
Proof.
  intros r. subst r. split.
  - intros [[sid cart aw] orders out a].
    unfold Chatbot.user_message,
      Chatbot.browse, Chatbot.checkout, Chatbot.history,
      Chatbot.review, Chatbot.cancel, Chatbot.selection.
    cbv zeta. js_split. all: exact I.
  - destruct s as [sid cart aw]. cbn [awaitingItemSelection].
    unfold reserved. cbn [existsb].
    run_user_message.
    all: cbn [app snd].
    all: try solve [left; discriminate].
    all: right.
    all: repeat match goal with
                | H : negb _ = false |- _ => apply negb_false_iff in H
                end.
    all: repeat split; try reflexivity; try assumption.
Qed.

(* ------------------------------------------------------------------ *)
(** ** The orders of the other sessions *)

Lemma others_insert_own sid o db :
  Order.sessionId o = sid ->
  others sid (Mongo.insert o db) = others sid db.
Proof.
  intros <-. unfold others, Mongo.insert. rewrite filter_app. simpl.
  rewrite String.eqb_refl. simpl. apply app_nil_r.
Qed.

Lemma others_updateOne sid (q : Order.t -> bool) upd db :
  (forall d, In d db -> q d = true -> Order.sessionId d = sid) ->
  (forall d, Order.sessionId (upd d) = Order.sessionId d) ->
  others sid (Mongo.updateOne q upd db) = others sid db.
Proof.
  unfold others. intros Hq Hupd.
  induction db as [|d rest IH]; [reflexivity|].
  cbn [Mongo.updateOne]. destruct (q d) eqn:E.
  - cbn [List.filter]. rewrite Hupd.
    rewrite (Hq d (or_introl eq_refl) E), String.eqb_refl. reflexivity.
  - cbn [List.filter]. rewrite IH; [reflexivity|].
    intros x Hx. apply Hq. now right.
Qed.

Lemma others_deleteMany_own sid db :
  others sid (Mongo.deleteMany (Mongo.by_session_pending sid) db)
  = others sid db.
Proof.
  unfold others, Mongo.deleteMany, Mongo.by_session_pending.
  induction db as [|d rest IH]; [reflexivity|].
  cbn [List.filter].
  destruct (String.eqb (Order.sessionId d) sid) eqn:E; simpl.
  - destruct (Order.is_pending d); simpl; [exact IH|].
    rewrite E. simpl. exact IH.
  - rewrite E. simpl. now rewrite IH.
Qed.

Lemma NoDup_id_inj db (x y : Order.t) :
  NoDup (List.map Order._id db) ->
  In x db -> In y db -> Order._id x = Order._id y -> x = y.
Proof.
  induction db as [|d rest IH]; simpl; [tauto|].
  intros Hnd Hx Hy E. inversion Hnd as [|? ? Hnot Hrest]; subst.
  destruct Hx as [-> | Hx], Hy as [-> | Hy]; auto.
  - exfalso. apply Hnot. rewrite E. now apply in_map.
  - exfalso. apply Hnot. rewrite <- E. now apply in_map.
Qed.

(** With unique ids, the stored order that has the id of the pending order
    found for a session is that order, of that session. *)
Lemma own_by_id db sid a d :
  NoDup (List.map Order._id db) ->
  Mongo.findOne (Mongo.by_session_pending sid) db = Some a ->
  In d db ->
  String.eqb (Order._id d) (Order._id a) = true ->
  Order.sessionId d = sid.
Proof.
  intros Hnd Hf Hd E. apply String.eqb_eq in E.
  apply findOne_In in Hf. destruct Hf as [Ha Hq].
  rewrite (NoDup_id_inj db d a Hnd Hd Ha E).
  unfold Mongo.by_session_pending in Hq. apply andb_prop in Hq.
  now apply String.eqb_eq.
Qed.

(** Session isolation. When the stored orders have distinct ids and a
    new order gets an unused one, no message of a connection, whatever it
    is and however the gateway and the other calls answer, removes, adds
    or alters an order of another session. *)
Theorem a_message_leaves_the_orders_of_other_sessions env input s db :
  NoDup (List.map Order._id db) ->
  ~ In (newObjectId env) (List.map Order._id db) ->
  others (sessionId s)
    (snd (fst (Chatbot.on_user_message env input s db)))
  = others (sessionId s) db.
Proof.
  intros Hnd Hfresh. destruct s as [sid cart aw]. cbn [sessionId].
  run_user_message.
  all: cbn [fst snd].
  all: rewrite ?updateOne_inserted by exact Hfresh.
  all: try reflexivity.
  all: try solve [apply others_insert_own; reflexivity].
  all: try solve [apply others_deleteMany_own].
  all: match goal with
       | Hf : Mongo.findOne (Mongo.by_session_pending _) _ = Some ?a |- _ =>
           apply others_updateOne;
             [ intros d Hd Hq; exact (own_by_id _ _ a d Hnd Hf Hd Hq)
             | reflexivity ]
       end.
Qed.

Lemma a_message_leaves_the_orders_of_other_sessions_witness :
  let env := refusing 40 in
  let foreign :=
    {| Order._id := "65f0000000000000000000b9";
       Order.sessionId := "9b2e4567-e89b-42d3-a456-426614174999";
       Order.items := []; Order.total := 700;
       Order.status := Order.pending; Order.paymentReference := None;
       Order.createdAt := 3; Order.updatedAt := 3 |} in
  others sid0
    (snd (fst (Chatbot.on_user_message env (JsString.of_string "99")
                 (fresh_session sid0) [foreign; order1 Order.pending])))
  = [foreign].
Proof.
  intros env foreign.
  apply (a_message_leaves_the_orders_of_other_sessions env
           (JsString.of_string "99") (fresh_session sid0)
           [foreign; order1 Order.pending]).
  - repeat constructor; simpl; intuition discriminate.
  - simpl. intuition discriminate.
Defined.

(* ------------------------------------------------------------------ *)
(** ** The payment callback and the receipt *)

(** When the verification cannot be made, or when it reports a success
    but the update of the order rejects, the caller is redirected to the
    error page; nothing is written and nothing is broadcast. *)
Theorem callback_that_fails_redirects_to_the_error_page env r db :
  verify env r = VerifyRejected
  \/ (verify env r = VerifyResolved "success"
      /\ orderUpdateRejects env = true) ->
  Payment.on_callback env r db
  = {| Payment.db := db;
       Payment.sent := [paystack_verify r; res_redirect "/?payment=error"];
       Payment.unhandled := false |}.
Proof.
  intros [Hv | [Hv Hu]].
  - now apply callback_verify_rejected.
  - unfold Payment.on_callback, Payment.payment_callback. js_run.
    rewrite Hv. js_run. change ("success" =? "success")%string with true.
    cbv iota. rewrite Hu. reflexivity.
Qed.

Lemma callback_that_fails_redirects_to_the_error_page_witness :
  Payment.response
    (Payment.on_callback (refusing 40) ref1 [order1 Order.pending])
  = Some "/?payment=error"
  /\ Payment.db
       (Payment.on_callback (refusing 40) ref1 [order1 Order.pending])
     = [order1 Order.pending].
Proof.
  rewrite (callback_that_fails_redirects_to_the_error_page (refusing 40)
             ref1 [order1 Order.pending]).
  - split; reflexivity.
  - left. reflexivity.
Defined.

(** Whatever the reference and the environment: the verification is
    asked first; at most one response is sent and at most one
    clear-session is broadcast; a broadcast is only made after the
    receipt redirect, and carries the session id of a stored order that
    has the reference and is paid. *)
Theorem callback_broadcasts_only_for_a_paid_order env r db :
  let o := Payment.on_callback env r db in
  hd_error (Payment.sent o) = Some (paystack_verify r)
  /\ (List.length (responses o) <= 1)%nat
  /\ (List.length (Payment.broadcasts o) <= 1)%nat
  /\ (Payment.broadcasts o = [] \/ responses o = [receipt r])
  /\ Forall (fun sid =>
               exists x, In x (Payment.db o)
                         /\ Order.has_reference r x = true
                         /\ Order.status x = Order.paid
                         /\ Order.sessionId x = sid)
            (Payment.broadcasts o).
Proof.
  intros o. subst o.
  unfold Payment.on_callback, Payment.payment_callback.
  js_split.
  all: cbn [Payment.sent Payment.db Payment.broadcasts responses
            flat_map app hd_error List.length].
  all: split; [reflexivity|]; split; [lia|]; split; [lia|].
  all: split; [auto|].
  all: try solve [constructor].
  all: constructor; [|constructor].
  all: match goal with
       | Hf : match Mongo.findOne _ _ with _ => _ end = Some _ |- _ =>
           destruct (Mongo.findOne (Order.has_reference r) db) as [a|] eqn:Ef;
           [injection Hf as <- | discriminate Hf]
       end.
  all: exists (Order.set_status Order.paid (now env) a).
  all: split;
    [ apply (findOne_In (Order.has_reference r));
      apply findOne_updateOne; [reflexivity | exact Ef]
    | split; [|split; reflexivity];
      apply (findOne_In _ _ _ Ef) ].
Qed.

Lemma findOne_paid_after_update r t db o :
  Mongo.findOne (Order.has_reference r) db = Some o ->
  Mongo.findOne (Receipt.by_reference_paid r)
    (Mongo.updateOne (Order.has_reference r)
       (Order.set_status Order.paid t) db)
  = Some (Order.set_status Order.paid t o).
Proof.
  unfold Mongo.findOne, Receipt.by_reference_paid.
  induction db as [|d rest IH]; simpl; [discriminate|].
  destruct (Order.has_reference r d) eqn:E; simpl.
  - intros [= <-]. rewrite has_reference_set_status, E. reflexivity.
  - rewrite E. simpl. exact IH.
Qed.

(** From the callback to the receipt: once a callback has marked the
    order that carries a reference as paid, the receipt page asked for
    that reference shows that order - its lines, its total, its session
    id - with the time of the callback as the payment date. *)
Theorem paid_order_gets_its_receipt env env' r db o :
  verify env r = VerifyResolved "success" ->
  orderUpdateRejects env = false ->
  Mongo.findOne (Order.has_reference r) db = Some o ->
  orderFindRejects env' = false ->
  menuFindRejects env' = false ->
  let paid := Payment.on_callback env r db in
  Payment.response paid = Some (receipt r)
  /\ Receipt.receipt_route env' r (Payment.db paid)
     = Receipt.Rendered (receipt_lines o) (Order.total o) r
         (Order.sessionId o) (now env).
Proof.
  intros Hv Hu Hf Hfind Hmenu paid. subst paid.
  rewrite (callback_success_found env r db o Hv Hu Hf).
  split; [reflexivity|]. cbn [Payment.db].
  unfold Receipt.receipt_route. rewrite Hfind.
  rewrite (findOne_paid_after_update r (now env) db o Hf).
  rewrite Hmenu. reflexivity.
Qed.

Lemma paid_order_gets_its_receipt_witness :
  let paid := Payment.on_callback (verifying "success" 20) ref1
                [order1 Order.pending] in
  Payment.response paid = Some (receipt ref1)
  /\ Receipt.receipt_route (healthy 21 "65f0000000000000000000aa") ref1
       (Payment.db paid)
     = Receipt.Rendered [("Pounded Yam", 2000)] 2000 ref1 sid0 20.
Proof.
  apply (paid_order_gets_its_receipt (verifying "success" 20)
           (healthy 21 "65f0000000000000000000aa") ref1
           [order1 Order.pending] (order1 Order.pending));
    reflexivity.
Defined.

Lemma findOne_none_forall {A} (q : A -> bool) coll :
  (forall d, In d coll -> q d = false) -> Mongo.findOne q coll = None.
Proof.
  unfold Mongo.findOne. intros H.
  induction coll as [|d rest IH]; simpl; [reflexivity|].
  rewrite (H d (or_introl eq_refl)). apply IH.
  intros x Hx. apply H. now right.
Qed.

Lemma receipt_route_not_found env r db :
  orderFindRejects env = false ->
  (forall o, In o db -> Order.has_reference r o = true ->
             Order.status o <> Order.paid) ->
  Receipt.receipt_route env r db = Receipt.NotFound.
Proof.
  intros Hfind Hnone. unfold Receipt.receipt_route. rewrite Hfind.
  rewrite findOne_none_forall; [reflexivity|].
  intros d Hd. unfold Receipt.by_reference_paid.
  destruct (Order.has_reference r d) eqn:E; [|reflexivity]. simpl.
  destruct (Order.status_eqb (Order.status d) Order.paid) eqn:Es;
    [|reflexivity].
  apply status_eqb_eq in Es. now destruct (Hnone d Hd E).
Qed.

(** The receipt page is for paid orders only: for a reference that is
    carried by no order, or only by orders that are pending or
    cancelled, the answer is 404. *)
Theorem receipt_is_only_for_paid_orders env r db :
  orderFindRejects env = false ->
  (forall o, In o db -> Order.has_reference r o = true ->
             Order.status o <> Order.paid) ->
  Receipt.receipt_route env r db = Receipt.NotFound.
Proof. apply receipt_route_not_found. Qed.

Lemma receipt_is_only_for_paid_orders_witness :
  Receipt.receipt_route (healthy 21 "65f0000000000000000000aa") ref1
    [order1 Order.pending; order1 Order.cancelled]
  = Receipt.NotFound.
Proof.
  apply (receipt_is_only_for_paid_orders
           (healthy 21 "65f0000000000000000000aa") ref1
           [order1 Order.pending; order1 Order.cancelled]).
  - reflexivity.
  - intros o [<- | [<- | []]] _; discriminate.
Defined.

(** The receipt redirect that the callback sends for a verified
    reference which no order carries leads to the 404 of the receipt
    page. *)
Theorem receipt_redirect_for_an_unknown_reference_is_not_found
    env env' r db :
  verify env r = VerifyResolved "success" ->
  orderUpdateRejects env = false ->
  Mongo.findOne (Order.has_reference r) db = None ->
  orderFindRejects env' = false ->
  let sent := Payment.on_callback env r db in
  Payment.response sent = Some (receipt r)
  /\ Receipt.receipt_route env' r (Payment.db sent) = Receipt.NotFound.
Proof.
  intros Hv Hu Hf Hfind sent. subst sent.
  rewrite (callback_success_not_found env r db Hv Hu Hf).
  split; [reflexivity|]. cbn [Payment.db].
  apply receipt_route_not_found; [assumption|].
  intros o Ho Hr. exfalso.
  assert (Hnone := find_none _ _ Hf o Ho). congruence.
Qed.

Lemma receipt_redirect_for_an_unknown_reference_is_not_found_witness :
  let sent := Payment.on_callback (verifying "success" 20)
                "order_65f0000000000000000000b2" [order1 Order.pending] in
  Payment.response sent
  = Some (receipt "order_65f0000000000000000000b2")
  /\ Receipt.receipt_route (healthy 21 "65f0000000000000000000aa")
       "order_65f0000000000000000000b2" (Payment.db sent)
     = Receipt.NotFound.
Proof.
  apply (receipt_redirect_for_an_unknown_reference_is_not_found
           (verifying "success" 20)
           (healthy 21 "65f0000000000000000000aa")
           "order_65f0000000000000000000b2" [order1 Order.pending]);
    reflexivity.
Defined.

(* ------------------------------------------------------------------ *)
(** ** The session reset *)

Lemma filter_nil_forall {A} (q : A -> bool) coll :
  (forall d, In d coll -> q d = false) -> List.filter q coll = [].
Proof.
  intros H. induction coll as [|d rest IH]; simpl; [reflexivity|].
  rewrite (H d (or_introl eq_refl)). apply IH.
  intros x Hx. apply H. now right.
Qed.

Lemma other_session sid o :
  Order.sessionId o <> sid -> String.eqb (Order.sessionId o) sid = false.
Proof. intros H. now apply String.eqb_neq. Qed.

(** A clear-session for another id is ignored. One for the id of the
    connection's session resets it to a new id and an empty cart; as long
    as no stored order has the new id, the connection then sees none of
    the orders placed before, paid or pending: the history is empty,
    review finds no current order and checkout has nothing to place. *)
Theorem reset_connection_sees_none_of_its_orders env uuid s db :
  (forall o, In o db -> Order.sessionId o <> uuid) ->
  orderFindRejects env = false ->
  let s' := fst (Connection.on_clear_session uuid (sessionId s) s) in
  (forall sid, sid <> sessionId s ->
     Connection.on_clear_session uuid sid s = (s, []))
  /\ Connection.on_clear_session uuid (sessionId s) s
     = (fresh_session uuid, [bot_message Options])
  /\ Chatbot.on_user_message env (JsString.of_string "98") s' db
     = (s', db, [bot_message NoHistory; bot_message Options])
  /\ Chatbot.on_user_message env (JsString.of_string "97") s' db
     = (s', db, [bot_message NoCurrentOrder; bot_message Options])
  /\ Chatbot.on_user_message env (JsString.of_string "99") s' db
     = (s', db, [bot_message NoOrderToPlace; bot_message Options]).
Proof.
  intros Hnew Hfind s'. subst s'.
  unfold Connection.on_clear_session. rewrite String.eqb_refl.
  cbn [fst].
  assert (Hnone : Mongo.findOne (Mongo.by_session_pending uuid) db = None).
  { apply findOne_none_forall. intros d Hd.
    unfold Mongo.by_session_pending.
    now rewrite (other_session uuid d (Hnew d Hd)). }
  assert (Hhist : List.filter (Mongo.by_session_not_pending uuid) db = []).
  { apply filter_nil_forall. intros d Hd.
    unfold Mongo.by_session_not_pending.
    now rewrite (other_session uuid d (Hnew d Hd)). }
  split; [|split; [reflexivity | split; [|split]]].
  - intros sid Hsid. apply not_eq_sym in Hsid.
    apply String.eqb_neq in Hsid. now rewrite Hsid.
  - unfold Chatbot.on_user_message. rewrite dispatch_98.
    unfold Chatbot.history, fresh_session. js_run.
    rewrite Hfind. js_run. rewrite Hhist. reflexivity.
  - unfold Chatbot.on_user_message. rewrite dispatch_97.
    unfold Chatbot.review, fresh_session. js_run.
    change (List.length (@nil ObjectId) =? 0)%nat with true. cbv iota.
    rewrite Hfind. js_run. rewrite Hnone. reflexivity.
  - unfold Chatbot.on_user_message. rewrite dispatch_99.
    unfold Chatbot.checkout, fresh_session. js_run.
    change (0 <? List.length (@nil ObjectId))%nat with false. cbv iota.
    rewrite Hfind. js_run. rewrite Hnone. reflexivity.
Qed.

Lemma reset_connection_sees_none_of_its_orders_witness :
  let env := healthy 50 "65f0000000000000000000aa" in
  let uuid := "7c1e4567-e89b-42d3-a456-426614174111" in
  let s := fresh_session sid0 in
  Connection.on_clear_session uuid sid0 s
  = (fresh_session uuid, [bot_message Options])
  /\ Chatbot.on_user_message env (JsString.of_string "98")
       (fresh_session uuid) [order1 Order.paid]
     = (fresh_session uuid, [order1 Order.paid],
        [bot_message NoHistory; bot_message Options]).
Proof.
  intros env uuid s.
  destruct (reset_connection_sees_none_of_its_orders env uuid s
              [order1 Order.paid]) as (_ & Hreset & Hhist & _).
  - intros o [<- | []]. discriminate.
  - reflexivity.
  - split; [exact Hreset | exact Hhist].
Defined.

(* ------------------------------------------------------------------ *)
(** ** The page's script and the server's trimming *)

Lemma trimStart_idem s :
  JsString.trimStart (JsString.trimStart s) = JsString.trimStart s.
Proof.
  induction s as [|c s IH]; simpl; [reflexivity|].
  destruct (JsString.isWhiteSpace c) eqn:E; [exact IH|].
  simpl. now rewrite E.
Qed.

Lemma trimStart_head s :
  JsString.trimStart s = []
  \/ exists c r, JsString.trimStart s = c :: r
                 /\ JsString.isWhiteSpace c = false.
Proof.
  induction s as [|c s IH]; simpl; [now left|].
  destruct (JsString.isWhiteSpace c) eqn:E; [exact IH|].
  right. eauto.
Qed.

Lemma trimStart_app_last l c :
  JsString.isWhiteSpace c = false ->
  JsString.trimStart (l ++ [c])%list = (JsString.trimStart l ++ [c])%list.
Proof.
  intros Hc. induction l as [|x l IH]; simpl.
  - now rewrite Hc.
  - destruct (JsString.isWhiteSpace x); [exact IH | reflexivity].
Qed.

Lemma trimEnd_cons c r :
  JsString.isWhiteSpace c = false ->
  JsString.trimEnd (c :: r) = c :: JsString.trimEnd r.
Proof.
  intros Hc. unfold JsString.trimEnd. cbn [rev].
  rewrite (trimStart_app_last _ c Hc). now rewrite rev_unit.
Qed.

Lemma trimEnd_idem s :
  JsString.trimEnd (JsString.trimEnd s) = JsString.trimEnd s.
Proof.
  unfold JsString.trimEnd. now rewrite rev_involutive, trimStart_idem.
Qed.

Lemma trim_idem s : JsString.trim (JsString.trim s) = JsString.trim s.
Proof.
  unfold JsString.trim.
  destruct (trimStart_head s) as [E | (c & r & E & Hc)]; rewrite E.
  - reflexivity.
  - rewrite (trimEnd_cons c r Hc). cbn [JsString.trimStart]. rewrite Hc.
    rewrite (trimEnd_cons c _ Hc). now rewrite trimEnd_idem.
Qed.

(** The handler reads its input through [trim] only. *)
Lemma user_message_of_trimmed env input input' :
  JsString.trim input = JsString.trim input' ->
  Chatbot.user_message env input = Chatbot.user_message env input'.
Proof.
  intros E. unfold Chatbot.user_message. cbv zeta. now rewrite E.
Qed.

(** What the page sends: nothing for a blank field; otherwise the trimmed
    value, which is not empty, which the server's own [trim] leaves as it
    is, and which the handler treats exactly as the raw value. *)
Theorem page_sends_trimmed_messages value :
  match Client.sendMessage value with
  | None => JsString.trim value = []
  | Some message =>
      message = JsString.trim value
      /\ message <> []
      /\ JsString.trim message = message
      /\ forall env s db,
           Chatbot.on_user_message env message s db
           = Chatbot.on_user_message env value s db
  end.
Proof.
  unfold Client.sendMessage.
  destruct (JsString.trim value) as [|c r] eqn:E; [reflexivity|].
  split; [reflexivity|]. split; [discriminate|].
  assert (Ht : JsString.trim (c :: r) = c :: r)
    by (rewrite <- E; apply trim_idem).
  split; [exact Ht|].
  intros env s db. unfold Chatbot.on_user_message.
  now rewrite (user_message_of_trimmed env (c :: r) value)
    by (rewrite Ht; now symmetry).
Qed.

(* ------------------------------------------------------------------ *)
(** ** What the input pattern accepts *)

Lemma Matches_Class_inv p a :
  Regex.Matches (Regex.Class p) a -> exists c, a = [c] /\ p c = true.
Proof. intros H. invert_Matches H. eauto. Qed.

Lemma Matches_Alt_inv r1 r2 s :
  Regex.Matches (Regex.Alt r1 r2) s ->
  Regex.Matches r1 s \/ Regex.Matches r2 s.
Proof. intros H. invert_Matches H; auto. Qed.

Lemma Matches_Lit l s : Regex.Matches (Regex.Lit l) s -> s = l.
Proof.
  revert s. induction l as [|c l IH]; intros s H; cbn [Regex.Lit] in H.
  - now invert_Matches H.
  - apply Matches_Seq_inv in H. destruct H as (a & b & -> & Ha & Hb).
    apply Matches_Class_inv in Ha. destruct Ha as (c' & -> & Hc).
    apply N.eqb_eq in Hc. subst c'. now rewrite (IH b Hb).
Qed.

Lemma Matches_Star_digits b :
  forallb (fun c => (48 <=? c) && (c <=? 57))%N b = true ->
  Regex.Matches (Regex.Star Regex.digit) b.
Proof.
  induction b as [|c b IH]; simpl; intros H; [constructor|].
  apply andb_prop in H. destruct H as [Hc Hb].
  apply (Regex.MStarS Regex.digit [c] b); [now constructor | now apply IH].
Qed.

Lemma Matches_Plus_digit u :
  Regex.Matches (Regex.Plus Regex.digit) u <-> digit_run u = true.
Proof.
  unfold Regex.Plus, digit_run. split.
  - intros H. apply Matches_Seq_inv in H.
    destruct H as (a & b & -> & Ha & Hb).
    apply Matches_Class_inv in Ha. destruct Ha as (c & -> & Hc).
    apply (Matches_within (fun c => (48 <=? c) && (c <=? 57))%N) in Hb;
      [|intros x Hx; exact Hx].
    simpl. rewrite Hc. simpl. now apply forallb_forall, Forall_forall.
  - destruct u as [|c b]; simpl; [discriminate|]. intros H.
    apply andb_prop in H. destruct H as [Hc Hb].
    apply (Regex.MSeq _ _ [c] b); [now constructor|].
    now apply Matches_Star_digits.
Qed.

Lemma Matches_comma_groups v :
  Regex.Matches
    (Regex.Star (Regex.Seq (Regex.Chr 44%N) (Regex.Plus Regex.digit))) v
  <-> exists runs, forallb digit_run runs = true
                   /\ v = List.concat (List.map (cons 44%N) runs).
Proof.
  split.
  - intros H.
    remember (Regex.Star (Regex.Seq (Regex.Chr 44%N)
                            (Regex.Plus Regex.digit))) as sr eqn:Er.
    induction H as [| | | | |r'|r' u v Hu _ Hv IHv]; try discriminate.
    + exists []. auto.
    + injection Er as ->. destruct (IHv eq_refl) as (runs & Hruns & ->).
      apply Matches_Seq_inv in Hu. destruct Hu as (a & w & -> & Ha & Hw).
      apply Matches_Class_inv in Ha. destruct Ha as (c & -> & Hc).
      apply N.eqb_eq in Hc. subst c. apply Matches_Plus_digit in Hw.
      exists (w :: runs). simpl. now rewrite Hw, Hruns.
  - intros (runs & Hruns & ->).
    induction runs as [|w runs IH]; simpl; [constructor|].
    simpl in Hruns. apply andb_prop in Hruns. destruct Hruns as [Hw Hruns].
    apply (Regex.MStarS _ (44%N :: w)); [|now apply IH].
    apply (Regex.MSeq _ _ [44%N] w).
    + constructor. reflexivity.
    + now apply Matches_Plus_digit.
Qed.

(** The five reserved alternatives of the pattern are runs of digits
    themselves: the pattern accepts a run of digits followed by groups of
    a comma and a run of digits, and nothing else. *)
Lemma Matches_input_pattern s :
  Regex.Matches input_pattern s
  <-> exists u runs,
        digit_run u = true /\ forallb digit_run runs = true
        /\ s = (u ++ List.concat (List.map (cons 44%N) runs))%list.
Proof.
  unfold input_pattern. cbv zeta. split.
  - intros H.
    do 5 (apply Matches_Alt_inv in H; destruct H as [H | H];
          [ apply Matches_Lit in H; subst s;
            match goal with
            | |- exists u runs, _ /\ _ /\ ?x = _ => exists x, []
            end;
            split; [reflexivity|];
            split; [reflexivity | symmetry; apply app_nil_r] |]).
    apply Matches_Seq_inv in H. destruct H as (u & v & -> & Hu & Hv).
    apply Matches_Plus_digit in Hu. apply Matches_comma_groups in Hv.
    destruct Hv as (runs & Hruns & ->). eauto.
  - intros (u & runs & Hu & Hruns & ->).
    do 5 apply Regex.MAltR. apply Regex.MSeq.
    + now apply Matches_Plus_digit.
    + apply Matches_comma_groups. eauto.
Qed.

Lemma digit_run_no_comma u :
  digit_run u = true -> Forall (fun c => (c =? 44)%N = false) u.
Proof.
  unfold digit_run. intros H. apply andb_prop in H. destruct H as [_ H].
  rewrite forallb_forall in H. apply Forall_forall. intros c Hc.
  specialize (H c Hc). apply andb_prop in H. destruct H as [H1 H2].
  apply N.leb_le in H1. apply N.eqb_neq. lia.
Qed.

Lemma split_no_comma u :
  Forall (fun c => (c =? 44)%N = false) u -> JsString.split 44 u = [u].
Proof.
  induction 1 as [|c u Hc _ IH]; simpl; [reflexivity|].
  now rewrite Hc, IH.
Qed.

Lemma split_at_comma u rest :
  Forall (fun c => (c =? 44)%N = false) u ->
  JsString.split 44 (u ++ 44%N :: rest)%list = u :: JsString.split 44 rest.
Proof.
  induction 1 as [|c u Hc _ IH]; simpl; [reflexivity|].
  now rewrite Hc, IH.
Qed.

Lemma split_runs runs :
  forallb digit_run runs = true ->
  forall u, Forall (fun c => (c =? 44)%N = false) u ->
  JsString.split 44 (u ++ List.concat (List.map (cons 44%N) runs))%list
  = u :: runs.
Proof.
  induction runs as [|w runs IH]; intros Hruns u Hu; simpl.
  - rewrite app_nil_r. now apply split_no_comma.
  - simpl in Hruns. apply andb_prop in Hruns. destruct Hruns as [Hw Hruns].
    rewrite (split_at_comma u _ Hu). f_equal.
    apply IH; [exact Hruns | now apply digit_run_no_comma].
Qed.

(** Splitting loses nothing: the pieces joined by commas are the input. *)
Lemma split_joined s :
  exists u runs,
    JsString.split 44 s = u :: runs
    /\ s = (u ++ List.concat (List.map (cons 44%N) runs))%list.
Proof.
  induction s as [|c s (u & runs & Hs & E)]; simpl.
  - exists [], []. auto.
  - destruct (c =? 44)%N eqn:Ec.
    + apply N.eqb_eq in Ec. subst c. exists [], (u :: runs).
      rewrite Hs. split; [reflexivity|]. simpl. now rewrite <- E.
    + rewrite Hs. exists (c :: u), runs. split; [reflexivity|].
      simpl. now rewrite <- E.
Qed.

(** The input validation accepts exactly the inputs that, split at the
    commas, give runs of digits none of which is empty: no letters, no
    signs, no blanks inside, no empty item and no leading or trailing
    comma. *)
Theorem input_pattern_accepts_comma_separated_digit_runs s :
  Regex.test input_pattern s = forallb digit_run (JsString.split 44 s).
Proof.
  apply eq_true_iff_eq. rewrite test_Matches, Matches_input_pattern. split.
  - intros (u & runs & Hu & Hruns & ->).
    rewrite (split_runs runs Hruns u (digit_run_no_comma u Hu)).
    simpl. now rewrite Hu, Hruns.
  - intros H. destruct (split_joined s) as (u & runs & Hs & E).
    rewrite Hs in H. simpl in H. apply andb_prop in H.
    destruct H as [Hu Hruns]. eauto.
Qed.

(* ------------------------------------------------------------------ *)
(** ** How an accepted input is read *)

Lemma digit_cases c :
  ((48 <=? c) && (c <=? 57))%N = true ->
  (c = 48 \/ c = 49 \/ c = 50 \/ c = 51 \/ c = 52
   \/ c = 53 \/ c = 54 \/ c = 55 \/ c = 56 \/ c = 57)%N.
Proof.
  intros H. apply andb_prop in H. destruct H as [H1 H2].
  apply N.leb_le in H1, H2. lia.
Qed.

Lemma digit_not_whitespace c :
  ((48 <=? c) && (c <=? 57))%N = true -> JsString.isWhiteSpace c = false.
Proof.
  intros H. apply digit_cases in H.
  repeat (destruct H as [-> | H]; [reflexivity|]). now subst c.
Qed.

Lemma digit_value_decimal c :
  ((48 <=? c) && (c <=? 57))%N = true ->
  JsString.digit_value 10 c = Some (c - 48)%N.
Proof.
  intros H. apply digit_cases in H.
  repeat (destruct H as [-> | H]; [reflexivity|]). now subst c.
Qed.

Lemma digits_decimal u acc :
  forallb (fun c => (48 <=? c) && (c <=? 57))%N u = true ->
  JsString.digits 10 (Some acc) u
  = Some (fold_left (fun a c => a * 10 + (c - 48))%N u acc).
Proof.
  revert acc. induction u as [|c u IH]; intros acc H; simpl in H |- *.
  - reflexivity.
  - apply andb_prop in H. destruct H as [Hc Hu].
    rewrite (digit_value_decimal c Hc). now rewrite IH.
Qed.

Lemma trim_no_whitespace u :
  Forall (fun c => JsString.isWhiteSpace c = false) u -> JsString.trim u = u.
Proof.
  intros H. unfold JsString.trim.
  assert (Hs : JsString.trimStart u = u).
  { destruct H as [|c u Hc _]; simpl; [reflexivity | now rewrite Hc]. }
  rewrite Hs. clear Hs. induction H as [|c u Hc _ IH]; [reflexivity|].
  rewrite (trimEnd_cons c u Hc). now rewrite IH.
Qed.

Lemma parseInt_digits c u :
  ((48 <=? c) && (c <=? 57))%N = true ->
  forallb (fun c => (48 <=? c) && (c <=? 57))%N u = true ->
  JsString.parseInt (c :: u) = Number.of_integer (decimal (c :: u)).
Proof.
  intros Hc Hu.
  assert (Hd : JsString.digits 10 None (c :: u)
               = Some (fold_left (fun a c => a * 10 + (c - 48))%N u
                         (c - 48)%N)).
  { simpl. rewrite (digit_value_decimal c Hc). now apply digits_decimal. }
  unfold JsString.parseInt, decimal. cbv zeta.
  cbn [JsString.trimStart]. rewrite (digit_not_whitespace c Hc).
  cbn [fold_left]. change (0 * 10 + (c - 48))%N with (c - 48)%N.
  apply digit_cases in Hc.
  destruct Hc as [-> | Hc].
  - destruct u as [|c2 u].
    + reflexivity.
    + simpl in Hu. apply andb_prop in Hu. destruct Hu as [Hc2 Hu].
      pose proof (digit_cases c2 Hc2) as Hc2'.
      repeat (destruct Hc2' as [-> | Hc2'];
              [cbv iota beta; now rewrite Hd|]).
      subst c2. cbv iota beta. now rewrite Hd.
  - repeat (destruct Hc as [-> | Hc]; [cbv iota beta; now rewrite Hd|]).
    subst c. cbv iota beta. now rewrite Hd.
Qed.

Lemma parseInt_digit_run u :
  digit_run u = true ->
  JsString.parseInt (JsString.trim u) = Number.of_integer (decimal u).
Proof.
  intros H. unfold digit_run in H. apply andb_prop in H.
  destruct H as [Hne Hu]. destruct u as [|c u]; [discriminate|].
  rewrite trim_no_whitespace.
  - simpl in Hu. apply andb_prop in Hu. destruct Hu as [Hc Hu].
    now apply parseInt_digits.
  - apply Forall_forall. intros x Hx. apply digit_not_whitespace.
    rewrite forallb_forall in Hu. now apply Hu.
Qed.

Lemma of_integer_is_a_number z : Number.isNaN (Number.of_integer z) = false.
Proof.
  unfold Number.of_integer. cbv zeta.
  now destruct (2 ^ 1024 <=? Number.nearest (Z.abs_N z))%N.
Qed.

Lemma parsed_digit_runs (l : list JsString.t) :
  forallb digit_run l = true ->
  List.filter
    (fun num => negb (Number.isNaN num))
    (List.map (fun num => JsString.parseInt (JsString.trim num)) l)
  = List.map (fun u => Number.of_integer (decimal u)) l.
Proof.
  induction l as [|w l IH]; intros Hall; [reflexivity|].
  simpl in Hall. apply andb_prop in Hall. destruct Hall as [Hw Hl].
  cbn [List.filter List.map]. rewrite (parseInt_digit_run w Hw).
  rewrite of_integer_is_a_number. cbn [negb]. now rewrite (IH Hl).
Qed.

(** Below 2^53 an integer is its own Number value. *)
Lemma of_integer_exact z :
  Z.abs z < 2 ^ 53 -> Number.of_integer z = Number.Finite z.
Proof.
  intros Hz. unfold Number.of_integer, Number.nearest. cbv zeta.
  assert (Hn : (Z.abs_N z < 2 ^ 53)%N).
  { apply N2Z.inj_lt. rewrite N2Z.inj_abs_N. exact Hz. }
  apply N.ltb_lt in Hn. rewrite Hn.
  apply N.ltb_lt in Hn.
  assert (Hsmall : (2 ^ 1024 <=? Z.abs_N z)%N = false).
  { apply N.leb_gt. eapply N.lt_trans; [exact Hn|].
    apply N.pow_lt_mono_r; lia. }
  rewrite Hsmall. f_equal. rewrite N2Z.inj_abs_N. lia.
Qed.

Lemma decimal_bound u acc :
  forallb (fun c => (48 <=? c) && (c <=? 57))%N u = true ->
  (fold_left (fun a c => a * 10 + (c - 48)) u acc
   < (acc + 1) * 10 ^ N.of_nat (List.length u))%N.
Proof.
  revert acc. induction u as [|c u IH]; intros acc H.
  - simpl. lia.
  - simpl in H. apply andb_prop in H. destruct H as [Hc Hu].
    apply andb_prop in Hc. destruct Hc as [H1 H2].
    apply N.leb_le in H1, H2.
    cbn [fold_left List.length]. rewrite Nat2N.inj_succ, N.pow_succ_r'.
    eapply N.lt_le_trans; [apply (IH _ Hu)|].
    rewrite N.mul_assoc. apply N.mul_le_mono_r. lia.
Qed.

(** A run of at most 15 digits writes a number below 2^53. *)
Lemma decimal_exact u :
  digit_run u = true -> (List.length u <= 15)%nat ->
  Number.of_integer (decimal u) = Number.Finite (decimal u).
Proof.
  intros H Hlen. unfold digit_run in H. apply andb_prop in H.
  destruct H as [_ Hu]. apply of_integer_exact. unfold decimal.
  pose proof (decimal_bound u 0 Hu) as Hb.
  assert (Hp : (10 ^ N.of_nat (List.length u) <= 10 ^ 15)%N)
    by (apply N.pow_le_mono_r; lia).
  rewrite Z.abs_eq by apply N2Z.is_nonneg.
  change (2 ^ 53) with (Z.of_N (2 ^ 53)). apply N2Z.inj_lt.
  eapply N.lt_le_trans; [exact Hb|].
  eapply N.le_trans; [apply N.mul_le_mono_l; exact Hp|].
  vm_compute. discriminate.
Qed.

(** An input that the validation accepts is read as one number for each
    item between the commas, in their order: the double nearest to the
    decimal value that the item writes. No item is dropped as not a
    number, none is read as hexadecimal or octal, and a leading zero
    changes nothing. When no item has more than 15 digits, each number is
    the decimal value itself. *)
Theorem accepted_input_is_read_as_decimal_numbers s :
  Regex.test input_pattern s = true ->
  Chatbot.selectedItems s
  = List.map (fun u => Number.of_integer (decimal u)) (JsString.split 44 s)
  /\ (Forall (fun u => (List.length u <= 15)%nat) (JsString.split 44 s) ->
      Chatbot.selectedItems s
      = List.map (fun u => Number.Finite (decimal u))
          (JsString.split 44 s)).
Proof.
  intros H. apply test_Matches, Matches_input_pattern in H.
  destruct H as (u & runs & Hu & Hruns & ->).
  unfold Chatbot.selectedItems.
  rewrite (split_runs runs Hruns u (digit_run_no_comma u Hu)).
  assert (Hall : forallb digit_run (u :: runs) = true)
    by (simpl; now rewrite Hu, Hruns).
  pose proof (parsed_digit_runs (u :: runs) Hall) as Hread.
  split; [exact Hread|]. intros Hshort.
  etransitivity; [exact Hread|].
  apply map_ext_in. intros w Hw. apply decimal_exact.
  - rewrite forallb_forall in Hall. now apply Hall.
  - rewrite Forall_forall in Hshort. now apply Hshort.
Qed.

Lemma accepted_input_is_read_as_decimal_numbers_witness :
  Chatbot.selectedItems
    (JsString.of_string "02,3,9007199254740993,9007199254740995")
  = [Number.Finite 2; Number.Finite 3;
     Number.Finite 9007199254740992; Number.Finite 9007199254740996].
Proof.
  destruct (accepted_input_is_read_as_decimal_numbers
              (JsString.of_string "02,3,9007199254740993,9007199254740995"))
    as [Hread _]; [vm_compute; reflexivity|].
  rewrite Hread. vm_compute. reflexivity.
Defined.
